(** * The material move handler of the assets browser

    A shallow embedding of [AssetsBrowserMaterialMoveHandler.moveFile]
    ([src/renderer/editor/components/assets-browser/files/move/material.ts])
    and of what the method calls:

    - [JsString]: [String.prototype.replace] with a string pattern;
    - [Path]: [join] of Node's [path] module, in its POSIX flavour (the
      separator is ["/"]);
    - [Json]: the values [readJSON] returns, reading and assigning their
      properties, truthiness, and what a value becomes once written and read
      back;
    - the editor ([assetsDirectory], the materials of the scene), the disk,
      and a state-and-exception monad [M] in which a method runs and leaves
      the trace of its effects;
    - [moveFile] itself, then a summary of what a call does ([moved]), proved
      equal to the run of the method, from which the properties follow.

    What the embedding takes for granted: the scene is there (the method
    asserts it with [scene!]); [metadata.editorPath] of a material is a
    string when it is present; nothing else runs while the method is
    suspended at an [await]. *)

From Stdlib Require Import Ascii Floats.SpecFloat.
From stdpp Require Import gmap strings list fin_maps.


(* ===================================================================== *)
(** ** Strings *)
(* ===================================================================== *)

Module JsString.

(** [s.slice(n)] for [0 <= n]. *)
Fixpoint slice (n : nat) (s : string) : string :=
  match n, s with
  | O, _ => s
  | S _, EmptyString => EmptyString
  | S n', String _ s' => slice n' s'
  end.

(** [s.replace(pattern, replacement)] where [pattern] is a string: only the
    first occurrence of [pattern] is replaced, wherever it stands in [s].
    ([replacement] is taken literally; the method only ever passes the
    empty string, which holds no [$] pattern.) *)
Fixpoint replace (s pattern replacement : string) : string :=
  if String.prefix pattern s
  then replacement +:+ slice (String.length pattern) s
  else match s with
       | EmptyString => EmptyString
       | String c s' => String c (replace s' pattern replacement)
       end.

(** [s.includes(pattern)]. *)
Fixpoint includes (s pattern : string) : bool :=
  if String.prefix pattern s then true
  else match s with
       | EmptyString => false
       | String _ s' => includes s' pattern
       end.

End JsString.

(* ===================================================================== *)
(** ** Node's [path] module, POSIX flavour *)
(* ===================================================================== *)

Module Path.

Definition CHAR_FORWARD_SLASH : ascii := "/"%char.

Definition isPosixPathSeparator (c : ascii) : bool :=
  Ascii.eqb c CHAR_FORWARD_SLASH.

(** [path.charCodeAt(0) === CHAR_FORWARD_SLASH] and
    [path.charCodeAt(path.length - 1) === CHAR_FORWARD_SLASH]. *)
Definition startsWithSlash (s : string) : bool :=
  match s with
  | String c _ => isPosixPathSeparator c
  | EmptyString => false
  end.

Fixpoint endsWithSlash (s : string) : bool :=
  match s with
  | EmptyString => false
  | String c EmptyString => isPosixPathSeparator c
  | String _ s' => endsWithSlash s'
  end.

(** The pieces of a path between its separators, empty pieces included:
    ["/a//b"] gives [""; "a"; ""; "b"]. *)
Fixpoint split (s : string) : list string :=
  match s with
  | EmptyString => [EmptyString]
  | String c s' =>
      if isPosixPathSeparator c then EmptyString :: split s'
      else match split s' with
           | seg :: segs => String c seg :: segs
           | [] => [String c EmptyString]
           end
  end.

(** One round of the loop of [normalizeString], taken at a separator (or at
    the end of the path) with [seg] the piece read since the previous
    separator. [res] is the result built so far, as the stack of its
    segments, last segment first.
    - an empty piece or ["."] changes nothing;
    - [".."] removes the last segment, unless there is none or it is
      [".."] itself: then [".."] is appended when [allowAboveRoot] holds;
    - any other piece is appended. *)
Definition step (allowAboveRoot : bool) (res : list string) (seg : string)
  : list string :=
  if String.eqb seg "" || String.eqb seg "." then res
  else if String.eqb seg ".." then
    match res with
    | last :: res' =>
        if String.eqb last ".."
        then (if allowAboveRoot then seg :: res else res)
        else res'
    | [] => if allowAboveRoot then [seg] else []
    end
  else seg :: res.

Definition normalizeSegments (allowAboveRoot : bool) (segs : list string)
  : list string :=
  fold_left (step allowAboveRoot) segs [].

(** [normalizeString(path, allowAboveRoot, "/", isPosixPathSeparator)]. *)
Definition normalizeString (path : string) (allowAboveRoot : bool) : string :=
  String.concat "/" (rev (normalizeSegments allowAboveRoot (split path))).

(** [path.posix.normalize]. *)
Definition normalize (path : string) : string :=
  if String.eqb path "" then "."
  else
    let isAbsolute := startsWithSlash path in
    let trailingSeparator := endsWithSlash path in
    let p := normalizeString path (negb isAbsolute) in
    if String.eqb p "" then
      if isAbsolute then "/" else if trailingSeparator then "./" else "."
    else
      let p := if trailingSeparator then p +:+ "/" else p in
      if isAbsolute then "/" +:+ p else p.

(** [path.posix.join(...args)]: the non-empty arguments, glued with ["/"],
    normalized; ["."] when there is none. *)
Definition joinAll (args : list string) : string :=
  match filter (λ arg, arg ≠ "") args with
  | [] => "."
  | parts => normalize (String.concat "/" parts)
  end.

Definition join (a b : string) : string := joinAll [a; b].

(** *** Notions used to reason about [normalize] *)

(** The end of [normalize]: the text of the stack of segments, with the
    leading and trailing separators put back. *)
Definition finish (isAbsolute trailingSeparator : bool) (stack : list string)
  : string :=
  let p := String.concat "/" (rev stack) in
  if String.eqb p "" then
    if isAbsolute then "/" else if trailingSeparator then "./" else "."
  else
    let p := if trailingSeparator then p +:+ "/" else p in
    if isAbsolute then "/" +:+ p else p.

Fixpoint slashFree (s : string) : bool :=
  match s with
  | EmptyString => true
  | String c s' => negb (isPosixPathSeparator c) && slashFree s'
  end.

(** A segment that [step] appends as it is. *)
Definition plain (seg : string) : Prop :=
  seg ≠ "" ∧ seg ≠ "." ∧ seg ≠ ".." ∧ slashFree seg = true.

(** The stacks [normalizeSegments] builds: names on top of [".."]s, the
    latter only when the path may climb above its start. *)
Definition wfStack (allowAboveRoot : bool) (stack : list string) : Prop :=
  ∃ names dots,
    stack = names ++ dots
    ∧ Forall plain names
    ∧ Forall (λ seg, seg = "..") dots
    ∧ (allowAboveRoot = false → dots = []).

End Path.

(* ===================================================================== *)
(** ** JSON values *)
(* ===================================================================== *)

(** The errors a JavaScript operation of this development can throw. *)
Inductive Error := TypeError | SyntaxError | SystemError.

(** Completion of an operation: it returns, or it throws. *)
Inductive completion (A : Type) :=
| Normal (a : A)
| Throw (e : Error).
Arguments Normal {A} a.
Arguments Throw {A} e.

Module Json.

#[local] Set Warnings "-register-all".

(** What [JSON.parse] produces. Numbers are IEEE 754 doubles; an object is
    the list of its own properties in enumeration order. *)
Inductive value :=
| JNull
| JBool (b : bool)
| JNumber (x : spec_float)
| JString (s : string)
| JArray (items : list value)
| JObject (fields : list (string * value)).

Fixpoint get (key : string) (fields : list (string * value)) : option value :=
  match fields with
  | [] => None
  | (k, v) :: rest => if String.eqb k key then Some v else get key rest
  end.

(** Assignment to a property of an ordinary object: an existing property
    keeps its place, a new one comes last. *)
Fixpoint set (key : string) (v : value) (fields : list (string * value))
  : list (string * value) :=
  match fields with
  | [] => [(key, v)]
  | (k, old) :: rest =>
      if String.eqb k key then (k, v) :: rest else (k, old) :: set key v rest
  end.

(** [ToBoolean]; [None] stands for [undefined]. *)
Definition truthy (v : option value) : bool :=
  match v with
  | None | Some JNull => false
  | Some (JBool b) => b
  | Some (JNumber x) =>
      match x with
      | S754_zero _ | S754_nan => false
      | S754_infinity _ | S754_finite _ _ _ => true
      end
  | Some (JString s) => negb (String.eqb s "")
  | Some (JArray _) | Some (JObject _) => true
  end.

(** [target.key], for a [key] that no prototype defines (such as
    ["metadata"]): reading from [null] throws, a primitive or an array has
    no such property. *)
Definition getMember (target : value) (key : string)
  : completion (option value) :=
  match target with
  | JNull => Throw TypeError
  | JObject fields => Normal (get key fields)
  | JBool _ | JNumber _ | JString _ | JArray _ => Normal None
  end.

(** [target.key = v] in strict code (class bodies are strict), for a [key]
    that is not an array index: creating a property on a primitive throws;
    an array takes the property, which is no part of its JSON content. *)
Definition setMember (target : value) (key : string) (v : value)
  : completion value :=
  match target with
  | JObject fields => Normal (JObject (set key v fields))
  | JArray items => Normal (JArray items)
  | JNull | JBool _ | JNumber _ | JString _ => Throw TypeError
  end.

(** The value read back from the text [JSON.stringify] writes: [-0] is
    written [0], and the non-finite numbers are written [null]. *)
Fixpoint reparse (v : value) : value :=
  match v with
  | JNumber (S754_zero _) => JNumber (S754_zero false)
  | JNumber (S754_infinity _) | JNumber S754_nan => JNull
  | JArray items => JArray (List.map reparse items)
  | JObject fields =>
      JObject (List.map (λ kv, (fst kv, reparse (snd kv))) fields)
  | JNull | JBool _ | JNumber (S754_finite _ _ _) | JString _ => v
  end.

End Json.

(* ===================================================================== *)
(** ** The editor, the disk and the effects of a method *)
(* ===================================================================== *)

(** [mat.metadata], as far as the editor uses it: the optional
    [editorPath], and whatever else is stored there. *)
Record Metadata := {
  editorPath : option string;
  otherMetadata : list (string * Json.value);
}.

(** A material of the scene; [metadata] is [None] when the material has
    none ([null] or [undefined]). *)
Record Material := {
  name : string;
  metadata : option Metadata;
}.

(** A file of the disk: either a JSON document or something [readJSON]
    cannot parse. *)
Inductive File :=
| Unparseable
| Document (json : Json.value).

(** The options object handed to [writeJSON]. *)
Record WriteOptions := {
  spaces : string;
  encoding : string;
}.

(** The effects of the method, in the order they happen: an assignment to
    [materials[index].metadata.editorPath], a call of [readJSON] or of
    [writeJSON], and the suspension of the method at an [await], where the
    caller gets control back. *)
Inductive Event :=
| SetEditorPath (index : nat) (path : string)
| ReadJSON (file : string)
| WriteJSON (file : string) (json : Json.value) (options : WriteOptions)
| Await.

(** I/O failures of the environment, beyond a missing or malformed file. *)
Record Faults := {
  readFails : bool;
  writeFails : bool;
}.

Record World := {
  assetsDirectory : string;       (* this._editor.assetsBrowser.assetsDirectory *)
  materials : list Material;      (* this._editor.scene.materials *)
  disk : gmap string File;
  faults : Faults;
  trace : list Event;
}.

Definition withMaterials (w : World) (ms : list Material) : World :=
  {| assetsDirectory := assetsDirectory w; materials := ms; disk := disk w;
     faults := faults w; trace := trace w |}.

Definition withDisk (w : World) (d : gmap string File) : World :=
  {| assetsDirectory := assetsDirectory w; materials := materials w; disk := d;
     faults := faults w; trace := trace w |}.

Definition withTrace (w : World) (t : list Event) : World :=
  {| assetsDirectory := assetsDirectory w; materials := materials w;
     disk := disk w; faults := faults w; trace := t |}.

Definition withFaults (w : World) (f : Faults) : World :=
  {| assetsDirectory := assetsDirectory w; materials := materials w;
     disk := disk w; faults := f; trace := trace w |}.

(** Computations over the world that return or throw. *)
Definition M (A : Type) : Type := World → completion A * World.

Definition ret {A} (a : A) : M A := λ w, (Normal a, w).

Definition bind {A B} (m : M A) (k : A → M B) : M B :=
  λ w, match m w with
       | (Normal a, w') => k a w'
       | (Throw e, w') => (Throw e, w')
       end.

Definition throw {A} (e : Error) : M A := λ w, (Throw e, w).

(** [try { body } catch (e) { handler }]: the effects of [body] up to the
    throw stay. *)
Definition tryCatch {A} (body : M A) (handler : Error → M A) : M A :=
  λ w, match body w with
       | (Normal a, w') => (Normal a, w')
       | (Throw e, w') => handler e w'
       end.

Definition lift {A} (c : completion A) : M A := λ w, (c, w).

Definition getWorld : M World := λ w, (Normal w, w).

Definition emit (e : Event) : M unit :=
  λ w, (Normal (), withTrace w (trace w ++ [e])).

(** [content] becomes the content of [file]. Files are told apart by the
    text of their path: the disk is taken to hold each file under one
    spelling of its path. *)
Definition store (file : string) (content : File) : M unit :=
  λ w, (Normal (), withDisk w (<[file := content]> (disk w))).

(** [await promise]: the operation behind [promise] has been started; the
    method is suspended, and resumed with the outcome of the operation. *)
Definition await {A} (promise : M A) : M A :=
  λ w, match promise w with
       | (outcome, w') => (outcome, withTrace w' (trace w' ++ [Await]))
       end.

#[global] Instance M_ret : MRet M := @ret.
#[global] Instance M_bind : MBind M := λ A B k m, bind m k.

(** [mat.metadata.editorPath = path]; the assignment is only reached for a
    material that has [metadata]. *)
Definition assignEditorPath (mat : Material) (path : string) : Material :=
  match metadata mat with
  | Some md =>
      {| name := name mat;
         metadata := Some {| editorPath := Some path;
                             otherMetadata := otherMetadata md |} |}
  | None => mat
  end.

(** The same, on [materials[index]] of the scene. *)
Definition setEditorPath (index : nat) (path : string) : M unit :=
  λ w, match materials w !! index with
       | Some mat =>
           (Normal (),
            withTrace
              (withMaterials w (<[index := assignEditorPath mat path]> (materials w)))
              (trace w ++ [SetEditorPath index path]))
       | None => (Normal (), w)
       end.

(** [materials.forEach(callback)]: the callback is run on each index of the
    array in turn, with the element found there at that moment. *)
Fixpoint forIndices (indices : list nat) (callback : nat → Material → M unit)
  : M unit :=
  match indices with
  | [] => ret ()
  | index :: rest =>
      (w ← getWorld;
       match materials w !! index with
       | Some mat => callback index mat
       | None => ret ()
       end);;
      forIndices rest callback
  end.

Definition forEach (callback : nat → Material → M unit) : M unit :=
  w ← getWorld;
  forIndices (seq 0 (length (materials w))) callback.

(** [readJSON(file)] of fs-extra: fails on a missing file, on an I/O failure
    and on a text that is no JSON; otherwise gives the parsed document. *)
Definition readJSON (file : string) : M Json.value :=
  emit (ReadJSON file);;
  w ← getWorld;
  if readFails (faults w) then throw SystemError
  else match disk w !! file with
       | None => throw SystemError
       | Some Unparseable => throw SyntaxError
       | Some (Document json) => ret json
       end.

(** [writeJSON(file, json, options)] of fs-extra: the text of [json] becomes
    the content of [file], which from then on reads as [Json.reparse json];
    a failed write leaves the disk as it was. *)
Definition writeJSON (file : string) (json : Json.value) (options : WriteOptions)
  : M unit :=
  emit (WriteJSON file json options);;
  w ← getWorld;
  if writeFails (faults w) then throw SystemError
  else store file (Document (Json.reparse json)).

(* ===================================================================== *)
(** ** [AssetsBrowserMaterialMoveHandler] *)
(* ===================================================================== *)

Definition TAB : string := String (ascii_of_nat 9) EmptyString.

(** [to.replace(join(assetsDirectory, "/"), "")]. *)
Definition newEditorPath (assetsDirectory to : string) : string :=
  JsString.replace to (Path.join assetsDirectory "/") "".

(** The callback of [materials.forEach] in [moveFile]. *)
Definition moveMaterial (assetsDirectory from newEditorPath : string)
  (index : nat) (mat : Material) : M unit :=
  match metadata mat ≫= editorPath with          (* mat.metadata?.editorPath *)
  | None => ret ()
  | Some editorPath =>
      if String.eqb editorPath "" then ret ()      (* !editorPath *)
      else
        let path := Path.join assetsDirectory editorPath in
        if String.eqb path from then setEditorPath index newEditorPath
        else ret ()
  end.

(** [if (json.metadata) { json.metadata.editorPath = newEditorPath; }]:
    the document as it stands afterwards. *)
Definition patchDocument (json : Json.value) (newEditorPath : string)
  : completion Json.value :=
  match Json.getMember json "metadata" with
  | Throw e => Throw e
  | Normal md =>
      if Json.truthy md then
        match md, json with
        | Some target, Json.JObject fields =>
            match Json.setMember target "editorPath" (Json.JString newEditorPath) with
            | Normal target' =>
                Normal (Json.JObject (Json.set "metadata" target' fields))
            | Throw e => Throw e
            end
        | _, _ => Normal json
        end
      else Normal json
  end.

(** The body of the [try] block. *)
Definition patchFile (from newEditorPath : string) : M unit :=
  json ← await (readJSON from);
  json' ← lift (patchDocument json newEditorPath);
  await (writeJSON from json' {| spaces := TAB; encoding := "utf-8" |}).

(** [moveFile(from, to)]; the completion is the settlement of the promise
    the method returns. *)
Definition moveFile (from to : string) : M unit :=
  w ← getWorld;
  let newEditorPath := newEditorPath (assetsDirectory w) to in
  forEach (moveMaterial (assetsDirectory w) from newEditorPath);;
  tryCatch (patchFile from newEditorPath) (λ _, ret ()).

(* ===================================================================== *)
(** ** What a call amounts to *)
(* ===================================================================== *)

(** The test of the callback: a non-empty [editorPath] that joins with the
    asset root to [from]. *)
Definition matchesFrom (root from : string) (mat : Material) : bool :=
  match metadata mat ≫= editorPath with
  | Some p => negb (String.eqb p "") && String.eqb (Path.join root p) from
  | None => false
  end.

Definition relocate (root from new : string) (mat : Material) : Material :=
  if matchesFrom root from mat then assignEditorPath mat new else mat.

Fixpoint relocations (root from new : string) (index : nat) (mats : list Material)
  : list Event :=
  match mats with
  | [] => []
  | mat :: rest =>
      (if matchesFrom root from mat then [SetEditorPath index new] else [])
      ++ relocations root from new (S index) rest
  end.

Definition writeOptions : WriteOptions := {| spaces := TAB; encoding := "utf-8" |}.

(** The document [moveFile] hands to [writeJSON], when it gets that far. *)
Definition patched (w : World) (from new : string) : option Json.value :=
  if readFails (faults w) then None
  else match disk w !! from with
       | Some (Document json) =>
           match patchDocument json new with
           | Normal json' => Some json'
           | Throw _ => None
           end
       | Some Unparseable | None => None
       end.

(** The world [moveFile from to] leaves behind. *)
Definition moved (w : World) (from to : string) : World :=
  let root := assetsDirectory w in
  let new := newEditorPath root to in
  {| assetsDirectory := root;
     materials := relocate root from new <$> materials w;
     disk := match patched w from new with
             | Some json' =>
                 if writeFails (faults w) then disk w
                 else <[from := Document (Json.reparse json')]> (disk w)
             | None => disk w
             end;
     faults := faults w;
     trace := trace w ++ relocations root from new 0 (materials w)
              ++ ReadJSON from :: Await
              :: match patched w from new with
                 | Some json' => [WriteJSON from json' writeOptions; Await]
                 | None => []
                 end |}.

(** The effects a call adds to the trace. *)
Definition effects (w : World) (from to : string) : list Event :=
  drop (length (trace w)) (trace (moveFile from to w).2).

Definition isSetEditorPath (e : Event) : bool :=
  match e with
  | SetEditorPath _ _ => true
  | ReadJSON _ | WriteJSON _ _ _ | Await => false
  end.

Definition isWriteJSON (e : Event) : bool :=
  match e with
  | WriteJSON _ _ _ => true
  | SetEditorPath _ _ | ReadJSON _ | Await => false
  end.

(** [mat.metadata?.editorPath] *)
Definition editorPathOf (mat : Material) : option string :=
  metadata mat ≫= editorPath.

(* ===================================================================== *)
(** ** Sample data *)
(* ===================================================================== *)

Definition noFaults : Faults := {| readFails := false; writeFails := false |}.

Definition mkMaterial (n : string) (p : option string) : Material :=
  {| name := n;
     metadata := Some {| editorPath := p;
                         otherMetadata := [("tags", Json.JArray [])] |} |}.

Definition sampleDocument (p : string) : Json.value :=
  Json.JObject
    [("customType", Json.JString "BABYLON.PBRMaterial");
     ("metadata", Json.JObject [("editorPath", Json.JString p);
                                ("tags", Json.JArray [])]);
     ("alpha", Json.JNumber (S754_finite false 1 0))].

Definition sampleRoot : string := "/proj/assets".
Definition sampleFrom : string := "/proj/assets/mats/old.material".
Definition sampleTo : string := "/proj/assets/mats/new.material".

(** A scene with two references to the moved file (the second one through a
    path that is not normalized), one to another file, one material without
    [editorPath], one without metadata and one with an empty [editorPath]. *)
Definition sampleWorld : World :=
  {| assetsDirectory := sampleRoot;
     materials :=
       [mkMaterial "wood" (Some "mats/old.material");
        mkMaterial "stone" (Some "mats/stone.material");
        mkMaterial "wood-copy" (Some "mats/./old.material");
        mkMaterial "plain" None;
        {| name := "default"; metadata := None |};
        mkMaterial "blank" (Some "")];
     disk := {[ sampleFrom := Document (sampleDocument "mats/old.material") ]};
     faults := noFaults;
     trace := [] |}.

(** The sample scene when nothing can be read from the disk and nothing
    written to it. *)
Definition brokenDiskWorld : World :=
  withFaults (withDisk sampleWorld ∅) {| readFails := true; writeFails := true |}.

(* ===================================================================== *)
(** ** The sentences of the specification that the code does not meet,
       as they are written *)
(* ===================================================================== *)

(** "If the on-disk document has no [metadata] section, no write occurs but
    the call still succeeds". *)
Definition writesNothingWithoutMetadata (w : World) (from to : string) : Prop :=
  ∀ json,
    disk w !! from = Some (Document json) →
    Json.getMember json "metadata" = Normal None →
    List.filter isWriteJSON (effects w from to) = []
    ∧ (moveFile from to w).1 = Normal ().

(** A disk whose document at [from] has no [metadata]. *)
Definition bareDocument : Json.value :=
  Json.JObject [("alpha", Json.JNumber (S754_zero true))].

Definition bareWorld : World :=
  {| assetsDirectory := sampleRoot;
     materials := [];
     disk := {[ sampleFrom := Document bareDocument ]};
     faults := noFaults;
     trace := [] |}.

(** "If [to] does not have the asset-root directory (followed by a path
    separator) as a prefix, [moveFile] stores the string [to] itself,
    unmodified, as the new [editorPath] of every matching reference". *)
Definition storesDestinationUnmodified (w : World) (from to : string) : Prop :=
  String.prefix (Path.join (assetsDirectory w) "/") to = false →
  ∀ index mat p,
    materials w !! index = Some mat →
    editorPathOf mat = Some p →
    p ≠ "" →
    Path.join (assetsDirectory w) p = from →
    ∃ mat',
      materials (moveFile from to w).2 !! index = Some mat'
      ∧ editorPathOf mat' = Some to.

(** A path is the asset-root-relative form of [to] when resolving it against
    the asset root, the way the scan of [moveFile] resolves an [editorPath],
    gives [to]. *)
Definition resolvesTo (root rel to : string) : Prop :=
  Path.join root rel = to.

(** "Computes [newRelativePath] = path of [to] made relative to the asset
    root", for every [to]. *)
Definition computesRelativePath (root to : string) : Prop :=
  resolvesTo root (newEditorPath root to) to.

(** "Invoking the operation twice with identical [(from, to)] leaves state
    identical to invoking it once (second call matches zero references)". *)
Definition secondCallMatchesNothing (w : World) (from to : string) : Prop :=
  let w1 := (moveFile from to w).2 in
  let w2 := (moveFile from to w1).2 in
  materials w2 = materials w1
  ∧ disk w2 = disk w1
  ∧ List.filter isSetEditorPath (effects w1 from to) = [].

(* ===================================================================== *)
(** ** Further notions about [moveFile] *)
(* ===================================================================== *)

(** [path] is a normalized path below the asset root [root], and [rest] is
    what follows the root and its separator in it. *)
Definition belowRoot (root path rest : string) : Prop :=
  root ≠ "" ∧ rest ≠ "" ∧ path = Path.join root "/" +:+ rest
  ∧ Path.normalize path = path.

(** A scene in which a second material refers to the destination already. *)
Definition crowdedWorld : World :=
  {| assetsDirectory := sampleRoot;
     materials :=
       [mkMaterial "wood" (Some "mats/old.material");
        mkMaterial "oak" (Some "mats/new.material");
        mkMaterial "blank" (Some "")];
     disk := {[ sampleFrom := Document (sampleDocument "mats/old.material") ]};
     faults := noFaults;
     trace := [] |}.

(** The calls of the file system among the effects. *)
Definition isFileCall (e : Event) : bool :=
  match e with
  | ReadJSON _ | WriteJSON _ _ _ => true
  | SetEditorPath _ _ | Await => false
  end.

(* ===================================================================== *)
(** ** More of the JavaScript runtime *)
(* ===================================================================== *)

Module JsText.

(** [s.indexOf(pattern)]; [None] stands for [-1]. *)
Fixpoint indexOf (s pattern : string) : option nat :=
  if String.prefix pattern s then Some 0
  else match s with
       | EmptyString => None
       | String _ s' => S <$> indexOf s' pattern
       end.

(** The pieces of [s] between the occurrences of a non-empty [separator],
    found from left to right; [skip] counts the characters of a found
    occurrence still to pass. *)
Fixpoint splitFrom (separator : string) (skip : nat) (s : string) : list string :=
  match s with
  | EmptyString => [EmptyString]
  | String c s' =>
      match skip with
      | S skip' => splitFrom separator skip' s'
      | O =>
          if String.prefix separator s
          then EmptyString :: splitFrom separator (String.length separator - 1) s'
          else match splitFrom separator 0 s' with
               | piece :: pieces => String c piece :: pieces
               | [] => [String c EmptyString]
               end
      end
  end.

(** [s.split(separator)], without limit: with the empty separator, the
    characters of [s]. *)
Definition stringSplit (s separator : string) : list string :=
  if String.eqb separator ""
  then (λ c, String c EmptyString) <$> String.list_ascii_of_string s
  else splitFrom separator 0 s.

(** [array.join(separator)] on an array of strings. *)
Definition arrayJoin (array : list string) (separator : string) : string :=
  String.concat separator array.

(** [!s] on a string that may be [undefined]. *)
Definition falsy (s : option string) : bool :=
  match s with
  | None => true
  | Some s => String.eqb s ""
  end.

End JsText.

Module PathName.

(** [path.posix.basename(path)], without suffix: the last piece of [path]
    that is not empty, trailing separators left aside; the empty string when
    there is none. *)
Definition basename (path : string) : string :=
  List.last (List.filter (λ seg, negb (String.eqb seg "")) (Path.split path)) "".

End PathName.

(* ===================================================================== *)
(** ** [AssetsBrowserFiles]: the files view of the assets browser *)
(* ===================================================================== *)

Module AssetsBrowserFiles.

Inductive ItemType := directory | file.

(** The props of an [AssetsBrowserItem] element, but for [key] and [editor].
    [editor] is the same for all; [key] is [Tools.RandomId()], drawn anew
    for every element at every listing, so that no two listings give the
    same elements: an [Item] stands for an element up to its key, and an
    equation between items says nothing of their keys. [onDoubleClick] is the
    closure [() => this._handleItemDoubleClicked(directoryPath, f, fStats)],
    given by the three values it holds; of [fStats], [isDirectory()] is all
    that is ever asked. *)
Record Item := {
  title : string;
  absolutePath : string;
  type : ItemType;
  relativePath : string;
  onDoubleClick : string * string * bool;
}.

(** What [readdir] and [stat] of fs-extra answer. *)
Record FileSystem := {
  readdir : string → completion (list string);
  stat : string → completion bool;
}.

(** [IAssetsBrowserFilesState] *)
Record State := {
  pathStack : list string;
  currentDirectory : string;
  items : list Item;
}.

(** The component: its private [_assetsDirectory] ([None] while it is
    [undefined]), its state, and the calls of [props.onDirectorySelected]
    made so far. *)
Record Component := {
  _assetsDirectory : option string;
  state : State;
  directorySelected : list string;
}.

Definition withPathStack (s : State) (stack : list string) : State :=
  {| pathStack := stack; currentDirectory := currentDirectory s;
     items := items s |}.

Definition withCurrentDirectory (s : State) (directoryPath : string) : State :=
  {| pathStack := pathStack s; currentDirectory := directoryPath;
     items := items s |}.

Definition withItems (s : State) (elements : list Item) : State :=
  {| pathStack := pathStack s; currentDirectory := currentDirectory s;
     items := elements |}.

(** The component as its constructor leaves it. *)
Definition initial : Component :=
  {| _assetsDirectory := None;
     state := {| pathStack := []; currentDirectory := ""; items := [] |};
     directorySelected := [] |}.

(** Methods of the component: they return or throw, and change it. Updates
    of the state are applied in the order of the [setState] calls. *)
Definition C (A : Type) : Type := Component → completion A * Component.

#[global] Instance C_ret : MRet C := λ A a this, (Normal a, this).
#[global] Instance C_bind : MBind C :=
  λ A B k m this,
    match m this with
    | (Normal a, this') => k a this'
    | (Throw e, this') => (Throw e, this')
    end.

Definition liftC {A} (c : completion A) : C A := λ this, (c, this).

Definition getThis : C Component := λ this, (Normal this, this).

Definition setState (update : State → State) : C unit :=
  λ this, (Normal (),
           {| _assetsDirectory := _assetsDirectory this;
              state := update (state this);
              directorySelected := directorySelected this |}).

Definition assignAssetsDirectory (directoryPath : string) : C unit :=
  λ this, (Normal (),
           {| _assetsDirectory := Some directoryPath;
              state := state this;
              directorySelected := directorySelected this |}).

(** [this.props.onDirectorySelected(path)] *)
Definition onDirectorySelected (path : string) : C unit :=
  λ this, (Normal (),
           {| _assetsDirectory := _assetsDirectory this;
              state := state this;
              directorySelected := directorySelected this ++ [path] |}).

(** [this._assetsDirectory] where it is read as a string: after the first
    statement of [setDirectory] it is one. *)
Definition assetsDirectoryOf (this : Component) : string :=
  default "" (_assetsDirectory this).

(** [files.filter((f) => f.indexOf(".") !== 0)] *)
Definition shown (f : string) : bool :=
  negb (bool_decide (JsText.indexOf f "." = Some 0)).

(** The [for (const f of files)] loop of [setDirectory]: one item per file,
    after its [stat]; the first [stat] that fails ends the loop. *)
Fixpoint buildItems (fs : FileSystem) (assetsDirectory directoryPath : string)
  (files : list string) : completion (list Item) :=
  match files with
  | [] => Normal []
  | f :: files' =>
      let absolutePath := Path.join directoryPath f in
      match stat fs absolutePath with
      | Throw e => Throw e
      | Normal isDirectory =>
          match buildItems fs assetsDirectory directoryPath files' with
          | Throw e => Throw e
          | Normal items =>
              Normal
                ({| title := f;
                    absolutePath := absolutePath;
                    type := if isDirectory then directory else file;
                    relativePath :=
                      JsString.replace absolutePath
                        (Path.join assetsDirectory "/") "";
                    onDoubleClick := (directoryPath, f, isDirectory) |}
                 :: items)
          end
      end
  end.

(** The path stack [setDirectory] computes, if it computes one:
    [directoryPath.split(this._assetsDirectory)[1]], when truthy, cut at the
    separators, its empty pieces dropped, after the asset root. *)
Definition refreshedPathStack (assetsDirectory directoryPath : string)
  : option (list string) :=
  match JsText.stringSplit directoryPath assetsDirectory !! 1 with
  | Some split =>
      if String.eqb split "" then None
      else Some (assetsDirectory
                 :: List.filter (λ d, negb (String.eqb d ""))
                      (JsText.stringSplit split "/"))
  | None => None
  end.

(** [setDirectory(directoryPath)] *)
Definition setDirectory (fs : FileSystem) (directoryPath : string) : C unit :=
  this ← getThis;
  (if JsText.falsy (_assetsDirectory this)
   then assignAssetsDirectory directoryPath;;
        setState (λ s, withCurrentDirectory (withPathStack s [directoryPath])
                         directoryPath)
   else mret ());;
  files ← liftC (readdir fs directoryPath);
  this ← getThis;
  items ← liftC (buildItems fs (assetsDirectoryOf this) directoryPath
                   (List.filter shown files));
  match refreshedPathStack (assetsDirectoryOf this) directoryPath with
  | Some pathStack => setState (λ s, withPathStack s pathStack)
  | None => mret ()
  end;;
  setState (λ s, withItems s items).

(** [refresh()] *)
Definition refresh (fs : FileSystem) : C unit :=
  this ← getThis;
  setDirectory fs (currentDirectory (state this)).

(** [_handleItemDoubleClicked(directoryPath, file, stats)] *)
Definition _handleItemDoubleClicked (fs : FileSystem)
  (directoryPath file : string) (isDirectory : bool) : C unit :=
  if isDirectory then
    let currentDirectory := Path.join directoryPath file in
    this ← getThis;
    let pathStack := pathStack (state this) ++ [file] in
    onDirectorySelected currentDirectory;;
    setState (λ s, withCurrentDirectory (withPathStack s pathStack)
                     currentDirectory);;
    setDirectory fs currentDirectory
  else mret ().

(** An [IBreadcrumbProps], but for [icon] and [intent] (the same for all):
    [text] is the text of its label, and [onClick], the closure
    [() => { this.setDirectory(itemStack.join("/")); }], is given by the
    path it hands to [setDirectory]. *)
Record Breadcrumb := {
  text : string;
  onClick : string;
}.

(** The loop of [_getBreadcrumbsItems]; [pathStack] is the local array of
    that name, filled as the loop goes. *)
Fixpoint breadcrumbsFrom (pathStack rest : list string) : list Breadcrumb :=
  match rest with
  | [] => []
  | p :: rest' =>
      let itemStack := pathStack ++ [p] in
      {| text := PathName.basename p; onClick := JsText.arrayJoin itemStack "/" |}
      :: breadcrumbsFrom (pathStack ++ [p]) rest'
  end.

(** [_getBreadcrumbsItems()] *)
Definition _getBreadcrumbsItems (this : Component) : list Breadcrumb :=
  breadcrumbsFrom [] (pathStack (state this)).

(** What the user and the container of the view can do: show a directory
    ([setDirectory] is public), refresh, double-click the item at some
    place of the view, click the breadcrumb at some place of the bar. *)
Inductive Action :=
| ShowDirectory (directoryPath : string)
| Refresh
| DoubleClick (index : nat)
| ClickBreadcrumb (index : nat).

Definition perform (fs : FileSystem) (action : Action) : C unit :=
  match action with
  | ShowDirectory directoryPath => setDirectory fs directoryPath
  | Refresh => refresh fs
  | DoubleClick index =>
      this ← getThis;
      match items (state this) !! index with
      | Some item =>
          let '(directoryPath, f, isDirectory) := onDoubleClick item in
          _handleItemDoubleClicked fs directoryPath f isDirectory
      | None => mret ()
      end
  | ClickBreadcrumb index =>
      this ← getThis;
      match _getBreadcrumbsItems this !! index with
      | Some crumb => setDirectory fs (onClick crumb)
      | None => mret ()
      end
  end.

(** A session: each action meets the file system of its moment; a failed
    action (a rejected promise) does not stop the next one. *)
Fixpoint session (steps : list (FileSystem * Action)) (this : Component)
  : Component :=
  match steps with
  | [] => this
  | (fs, action) :: steps' => session steps' (perform fs action this).2
  end.

End AssetsBrowserFiles.
(* ===================================================================== *)
(** ** Sample project *)
(* ===================================================================== *)

(** The asset root holds a folder [mats] with two materials, a scene file
    and two hidden entries. *)
Definition sampleFs : AssetsBrowserFiles.FileSystem :=
  {| AssetsBrowserFiles.readdir path :=
       if String.eqb path "/proj/assets"
       then Normal [".git"; "mats"; "scene.babylon"; ".DS_Store"]
       else if String.eqb path "/proj/assets/mats"
       then Normal ["old.material"; "stone.material"]
       else Throw SystemError;
     AssetsBrowserFiles.stat path :=
       if String.eqb path "/proj/assets/mats" then Normal true
       else if String.eqb path "/proj/assets/scene.babylon" then Normal false
       else if String.eqb path "/proj/assets/mats/old.material" then Normal false
       else if String.eqb path "/proj/assets/mats/stone.material" then Normal false
       else Throw SystemError |}.

(* ===================================================================== *)
(** ** What a call of [setDirectory] amounts to *)
(* ===================================================================== *)

(** The component after the first statement of [setDirectory]. *)
Definition prepared (this : AssetsBrowserFiles.Component) (directoryPath : string)
  : AssetsBrowserFiles.Component :=
  if JsText.falsy (AssetsBrowserFiles._assetsDirectory this)
  then {| AssetsBrowserFiles._assetsDirectory := Some directoryPath;
          AssetsBrowserFiles.state :=
            AssetsBrowserFiles.withCurrentDirectory
              (AssetsBrowserFiles.withPathStack
                 (AssetsBrowserFiles.state this) [directoryPath])
              directoryPath;
          AssetsBrowserFiles.directorySelected :=
            AssetsBrowserFiles.directorySelected this |}
  else this.

(** The component after a listing that succeeded with [elements]. *)
Definition listed (this : AssetsBrowserFiles.Component) (directoryPath : string)
  (elements : list AssetsBrowserFiles.Item) : AssetsBrowserFiles.Component :=
  let this' := prepared this directoryPath in
  {| AssetsBrowserFiles._assetsDirectory := AssetsBrowserFiles._assetsDirectory this';
     AssetsBrowserFiles.state :=
       AssetsBrowserFiles.withItems
         (match AssetsBrowserFiles.refreshedPathStack
                  (AssetsBrowserFiles.assetsDirectoryOf this') directoryPath with
          | Some stack =>
              AssetsBrowserFiles.withPathStack (AssetsBrowserFiles.state this') stack
          | None => AssetsBrowserFiles.state this'
          end)
         elements;
     AssetsBrowserFiles.directorySelected :=
       AssetsBrowserFiles.directorySelected this' |}.

(** An item as [setDirectory] builds it for the entry [f] of
    [directoryPath]. *)
Definition itemOf (fs : AssetsBrowserFiles.FileSystem)
  (assetsDirectory directoryPath : string) (item : AssetsBrowserFiles.Item) : Prop :=
  ∃ isDirectory,
    AssetsBrowserFiles.stat fs (AssetsBrowserFiles.absolutePath item)
    = Normal isDirectory
    ∧ AssetsBrowserFiles.absolutePath item
      = Path.join directoryPath (AssetsBrowserFiles.title item)
    ∧ AssetsBrowserFiles.type item
      = (if isDirectory then AssetsBrowserFiles.directory
         else AssetsBrowserFiles.file)
    ∧ AssetsBrowserFiles.relativePath item
      = JsString.replace (AssetsBrowserFiles.absolutePath item)
          (Path.join assetsDirectory "/") ""
    ∧ AssetsBrowserFiles.onDoubleClick item
      = (directoryPath, AssetsBrowserFiles.title item, isDirectory).

(** Two outcomes of a method show the same view: the method returned or
    threw alike, and the components agree on the asset root, the path
    stack, the current directory, the notifications made, and on the items
    in every prop but their keys. *)
Definition sameView
  (a b : completion unit * AssetsBrowserFiles.Component) : Prop :=
  a.1 = b.1
  ∧ AssetsBrowserFiles._assetsDirectory a.2 = AssetsBrowserFiles._assetsDirectory b.2
  ∧ AssetsBrowserFiles.pathStack (AssetsBrowserFiles.state a.2)
    = AssetsBrowserFiles.pathStack (AssetsBrowserFiles.state b.2)
  ∧ AssetsBrowserFiles.currentDirectory (AssetsBrowserFiles.state a.2)
    = AssetsBrowserFiles.currentDirectory (AssetsBrowserFiles.state b.2)
  ∧ AssetsBrowserFiles.directorySelected a.2 = AssetsBrowserFiles.directorySelected b.2
  ∧ AssetsBrowserFiles.items (AssetsBrowserFiles.state a.2)
    = AssetsBrowserFiles.items (AssetsBrowserFiles.state b.2).

(* ===================================================================== *)
(** ** What holds of the files view throughout a session *)
(* ===================================================================== *)

(** An item whose title is not hidden and whose closure opens the item
    itself. *)
Definition coherentItem (item : AssetsBrowserFiles.Item) : Prop :=
  String.prefix "." (AssetsBrowserFiles.title item) = false
  ∧ ∃ directoryPath isDirectory,
      AssetsBrowserFiles.onDoubleClick item
      = (directoryPath, AssetsBrowserFiles.title item, isDirectory)
      ∧ AssetsBrowserFiles.absolutePath item
        = Path.join directoryPath (AssetsBrowserFiles.title item)
      ∧ AssetsBrowserFiles.type item
        = (if isDirectory then AssetsBrowserFiles.directory
           else AssetsBrowserFiles.file).

(** All items are coherent, and once the asset root is set the path stack
    starts with it. *)
Definition coherent (this : AssetsBrowserFiles.Component) : Prop :=
  Forall coherentItem (AssetsBrowserFiles.items (AssetsBrowserFiles.state this))
  ∧ ∀ root,
      AssetsBrowserFiles._assetsDirectory this = Some root → root ≠ "" →
      ∃ names,
        AssetsBrowserFiles.pathStack (AssetsBrowserFiles.state this)
        = root :: names.

(* ===================================================================== *)
(** ** [AddMeshToShadowGenerator]: a node of the graph editor *)
(* ===================================================================== *)

Module AddMeshToShadowGenerator.

(** A mesh of the scene, as the reference to it. *)
Inductive Mesh := MeshRef (id : nat).

(** What [execute] reaches of a light: [getShadowGenerator()], then
    [getShadowMap()], then [renderList], each of which may be [null]. *)
Record ShadowMap := { renderList : option (list Mesh) }.
Record ShadowGenerator := { getShadowMap : option ShadowMap }.
Record Light := { getShadowGenerator : option ShadowGenerator }.

(** [light.getShadowGenerator()?.getShadowMap()?.renderList?.push(mesh)]:
    the light afterwards. *)
Definition push (light : Light) (mesh : Mesh) : Light :=
  match getShadowGenerator light with
  | Some generator =>
      match getShadowMap generator with
      | Some map =>
          match renderList map with
          | Some list =>
              {| getShadowGenerator :=
                   Some {| getShadowMap :=
                             Some {| renderList := Some (list ++ [mesh]) |} |} |}
          | None => light
          end
      | None => light
      end
  | None => light
  end.

(** [execute()], from the data at the inputs 1 and 2 ([None] when an input
    has none): the light afterwards, and the output slots triggered. *)
Definition execute (mesh : option Mesh) (light : option Light)
  : option Light * list nat :=
  match mesh with
  | None => (light, [])
  | Some mesh =>
      match light with
      | None => (None, [])
      | Some light => (Some (push light mesh), [0])
      end
  end.

(** [light.getShadowGenerator()?.getShadowMap()?.renderList] *)
Definition renderListOf (light : Light) : option (list Mesh) :=
  generator ← getShadowGenerator light;
  map ← getShadowMap generator;
  renderList map.

(** The node executed [n] times in a row with the same mesh on the light
    the previous execution left. *)
Fixpoint executeTimes (n : nat) (mesh : Mesh) (light : Light)
  : Light * list nat :=
  match n with
  | O => (light, [])
  | S n' =>
      match execute (Some mesh) (Some light) with
      | (Some light', fired) =>
          let '(light'', fired') := executeTimes n' mesh light' in
          (light'', fired ++ fired')
      | (None, fired) => (light, fired)
      end
  end.

Definition castingLight (list : list Mesh) : Light :=
  {| getShadowGenerator :=
       Some {| getShadowMap := Some {| renderList := Some list |} |} |}.

End AddMeshToShadowGenerator.

(* ===================================================================== *)
(** ** Checks of the embedding on concrete inputs *)
(* ===================================================================== *)

Example join_root_slash : Path.join "/proj/assets" "/" = "/proj/assets/".
Proof. reflexivity. Qed.

Example join_root_rel :
  Path.join "/proj/assets" "mats/old.material" = "/proj/assets/mats/old.material".
Proof. reflexivity. Qed.

Example join_dots : Path.join "/a/b/../c/." "./d//e/" = "/a/c/d/e/".
Proof. reflexivity. Qed.

Example join_above : Path.join "../.." "../a/../../b" = "../../../../b".
Proof. reflexivity. Qed.

Example join_above_abs : Path.join "/.." "../a" = "/a".
Proof. reflexivity. Qed.

Example join_empty : Path.join "" "" = "." /\ Path.join "" "/" = "/" /\ Path.join "./" "" = "./".
Proof. repeat split. Qed.

Example replace_first :
  JsString.replace "/b/a/x/a/y" "/a/" "" = "/bx/a/y".
Proof. reflexivity. Qed.

(** The example of the specification: with the asset root [/proj/assets], a
    move of [/proj/assets/mats/old.material] to
    [/proj/assets/mats/new.material] turns the stored path
    ["mats/old.material"] into ["mats/new.material"]. *)
Example moveFile_sample_materials :
  editorPathOf <$> materials (moveFile sampleFrom sampleTo sampleWorld).2
  = [Some "mats/new.material"; Some "mats/stone.material";
     Some "mats/new.material"; None; None; Some ""].
Proof. vm_compute. reflexivity. Qed.

Example moveFile_sample_effects :
  effects sampleWorld sampleFrom sampleTo
  = [SetEditorPath 0 "mats/new.material"; SetEditorPath 2 "mats/new.material";
     ReadJSON sampleFrom; Await;
     WriteJSON sampleFrom (sampleDocument "mats/new.material")
       {| spaces := TAB; encoding := "utf-8" |};
     Await].
Proof. vm_compute. reflexivity. Qed.

Example moveFile_missing_file :
  (moveFile sampleFrom sampleTo (withDisk sampleWorld ∅)).1 = Normal ()
  ∧ effects (withDisk sampleWorld ∅) sampleFrom sampleTo
    = [SetEditorPath 0 "mats/new.material"; SetEditorPath 2 "mats/new.material";
       ReadJSON sampleFrom; Await].
Proof. split; vm_compute; reflexivity. Qed.

Example patchDocument_null : patchDocument Json.JNull "p" = Throw TypeError.
Proof. reflexivity. Qed.

Example patchDocument_metadata_string :
  patchDocument (Json.JObject [("metadata", Json.JString "m")]) "p"
  = Throw TypeError.
Proof. reflexivity. Qed.

Example patchDocument_metadata_array :
  patchDocument (Json.JObject [("metadata", Json.JArray [])]) "p"
  = Normal (Json.JObject [("metadata", Json.JArray [])]).
Proof. reflexivity. Qed.

Example patchDocument_metadata_null :
  patchDocument (Json.JObject [("metadata", Json.JNull)]) "p"
  = Normal (Json.JObject [("metadata", Json.JNull)]).
Proof. reflexivity. Qed.

(* ===================================================================== *)
(** ** Facts about strings and paths *)
(* ===================================================================== *)

Module JsStringFacts.
Import JsString.

Lemma prefix_append (p s : string) : String.prefix p (p +:+ s) = true.
Proof.
  induction p as [|c p IH]; simpl.
  - by destruct s.
  - destruct (Ascii.ascii_dec c c); [done | congruence].
Qed.

Lemma slice_append (p s : string) : slice (String.length p) (p +:+ s) = s.
Proof. induction p as [|c p IH]; simpl; [by destruct s | done]. Qed.

Lemma replace_unfold (s p r : string) :
  replace s p r =
  if String.prefix p s then r +:+ slice (String.length p) s
  else match s with
       | EmptyString => EmptyString
       | String c s' => String c (replace s' p r)
       end.
Proof. by destruct s. Qed.

Lemma replace_prefix (p s r : string) : replace (p +:+ s) p r = r +:+ s.
Proof. by rewrite replace_unfold, prefix_append, slice_append. Qed.

Lemma includes_unfold (s p : string) :
  includes s p =
  if String.prefix p s then true
  else match s with
       | EmptyString => false
       | String _ s' => includes s' p
       end.
Proof. by destruct s. Qed.

Lemma replace_absent (s p r : string) : includes s p = false → replace s p r = s.
Proof.
  induction s as [|c s IH]; rewrite includes_unfold, replace_unfold;
    destruct (String.prefix p _); try done.
  intros H. by rewrite IH.
Qed.
End JsStringFacts.

Module JsStringMore.
Import JsString.

Lemma prefix_true (p s : string) :
  String.prefix p s = true ↔ ∃ rest, s = p +:+ rest.
Proof.
  split.
  - revert s. induction p as [|c p IH]; intros s; [by exists s|].
    destruct s as [|c' s]; cbn; [done|].
    destruct (Ascii.ascii_dec c c') as [<-|]; [|done].
    intros [rest ->]%IH. by exists rest.
  - intros [rest ->]. apply JsStringFacts.prefix_append.
Qed.

(** [includes] decides whether the pattern occurs somewhere. *)
Lemma includes_true (s p : string) :
  includes s p = true ↔ ∃ before after, s = before +:+ p +:+ after.
Proof.
  split.
  - induction s as [|c s IH]; rewrite JsStringFacts.includes_unfold;
      destruct (String.prefix p _) eqn:E; try done.
    + apply prefix_true in E as [rest E]. by exists "", rest.
    + apply prefix_true in E as [rest E]. by exists "", rest.
    + intros (before & after & ->)%IH. by exists (String c before), after.
  - intros (before & after & ->).
    induction before as [|c before IH].
    + change ("" +:+ p +:+ after) with (p +:+ after).
      by rewrite JsStringFacts.includes_unfold, JsStringFacts.prefix_append.
    + rewrite JsStringFacts.includes_unfold.
      destruct (String.prefix p _); [done|]. exact IH.
Qed.
End JsStringMore.

Module PathFacts.
Import Path.

Lemma normalize_unfold (path : string) :
  normalize path =
  if String.eqb path "" then "."
  else finish (startsWithSlash path) (endsWithSlash path)
         (normalizeSegments (negb (startsWithSlash path)) (split path)).
Proof. reflexivity. Qed.

Lemma append_cons (c : ascii) (a b : string) :
  String c a +:+ b = String c (a +:+ b).
Proof. reflexivity. Qed.

Lemma append_assoc (a b c : string) : (a +:+ b) +:+ c = a +:+ b +:+ c.
Proof.
  induction a as [|x a IH]; [done|]. by rewrite !append_cons, IH.
Qed.

Lemma append_nonempty_r (a b : string) : b ≠ "" → a +:+ b ≠ "".
Proof. destruct a; cbn; [done | discriminate]. Qed.

Lemma startsWithSlash_append (a b : string) :
  a ≠ "" → startsWithSlash (a +:+ b) = startsWithSlash a.
Proof. by destruct a. Qed.

Lemma endsWithSlash_append (a b : string) :
  b ≠ "" → endsWithSlash (a +:+ b) = endsWithSlash b.
Proof.
  intros Hb. induction a as [|x a IH]; [done|].
  rewrite append_cons. cbn [endsWithSlash]. rewrite IH.
  destruct (a +:+ b) eqn:E; [|done].
  by apply (append_nonempty_r a) in Hb.
Qed.

(** **** Splitting *)

Lemma split_nonempty (s : string) : split s ≠ [].
Proof.
  destruct s as [|c s]; cbn; [done|].
  destruct (isPosixPathSeparator c); [done|]. by destruct (split s).
Qed.

Lemma split_slash (s : string) : split (String "/" s) = "" :: split s.
Proof. reflexivity. Qed.

Lemma split_append (a b : string) :
  split (a +:+ String "/" b) = split a ++ split b.
Proof.
  induction a as [|c a IH]; [done|].
  rewrite append_cons. cbn [split]. rewrite IH.
  destruct (isPosixPathSeparator c); [done|].
  pose proof (split_nonempty a). by destruct (split a).
Qed.

Lemma split_slashFree (s : string) : slashFree s = true → split s = [s].
Proof.
  induction s as [|c s IH]; [done|]. cbn.
  destruct (isPosixPathSeparator c); [done|]. cbn. intros H. by rewrite IH.
Qed.

Lemma split_segments (s : string) : Forall (λ seg, slashFree seg = true) (split s).
Proof.
  induction s as [|c s IH]; cbn; [by repeat constructor|].
  destruct (isPosixPathSeparator c) eqn:E; [by constructor|].
  pose proof (split_nonempty s) as Hne.
  destruct (split s) as [|seg segs]; [done|].
  apply Forall_cons in IH as [Hseg Hsegs]. constructor; [|done].
  cbn. by rewrite E.
Qed.

Lemma concat_cons (x y : string) (l : list string) :
  String.concat "/" (x :: y :: l) = x +:+ String "/" (String.concat "/" (y :: l)).
Proof. reflexivity. Qed.

Lemma split_concat (l : list string) :
  Forall (λ seg, slashFree seg = true) l → l ≠ [] →
  split (String.concat "/" l) = l.
Proof.
  induction 1 as [|x l Hx Hl IH]; [done|]. intros _.
  destruct l as [|y l]; [by apply split_slashFree|].
  rewrite concat_cons, split_append, split_slashFree, IH; done.
Qed.

Lemma concat_nonempty (x : string) (l : list string) :
  x ≠ "" → String.concat "/" (x :: l) ≠ "".
Proof. destruct l; [done|]. rewrite concat_cons. by destruct x. Qed.

Lemma startsWithSlash_concat (x : string) (l : list string) :
  x ≠ "" → slashFree x = true →
  startsWithSlash (String.concat "/" (x :: l)) = false.
Proof.
  intros Hne Hfree. destruct l.
  - destruct x; [done|]. cbn in *. by destruct (isPosixPathSeparator _).
  - rewrite concat_cons. destruct x; [done|]. rewrite append_cons. cbn in *.
    by destruct (isPosixPathSeparator _).
Qed.
End PathFacts.

Module NormalizeFacts.
Import Path PathFacts.

(** **** One step *)

Lemma step_skip (allow : bool) (st : list string) (seg : string) :
  seg = "" ∨ seg = "." → step allow st seg = st.
Proof. by intros [-> | ->]. Qed.

Lemma step_plain (allow : bool) (st : list string) (seg : string) :
  plain seg → step allow st seg = seg :: st.
Proof.
  intros (H1 & H2 & H3 & _). unfold step.
  apply String.eqb_neq in H1, H2, H3. by rewrite H1, H2, H3.
Qed.

Lemma segment_cases (seg : string) :
  slashFree seg = true → seg = "" ∨ seg = "." ∨ seg = ".." ∨ plain seg.
Proof.
  intros Hfree.
  destruct (decide (seg = "")); [by left|].
  destruct (decide (seg = ".")); [by right; left|].
  destruct (decide (seg = "..")); [by right; right; left|].
  by right; right; right.
Qed.

Lemma step_wf (allow : bool) (st : list string) (seg : string) :
  slashFree seg = true → wfStack allow st → wfStack allow (step allow st seg).
Proof.
  intros Hfree (names & dots & -> & Hnames & Hdots & Hallow).
  destruct (segment_cases seg Hfree) as [-> | [-> | [-> | Hplain]]].
  - by exists names, dots.
  - by exists names, dots.
  - destruct names as [|n names].
    + destruct dots as [|d dots]; cbn.
      * destruct allow; [exists [], [".."] | exists [], []];
          split_and!; try done. by repeat constructor.
      * apply Forall_cons in Hdots as Hd. destruct Hd as [-> Hdots'].
        destruct allow; cbn.
        -- exists [], (".." :: ".." :: dots). split_and!; try done.
           by constructor.
        -- exists [], (".." :: dots). by split_and!.
    + apply Forall_cons in Hnames as [(_ & _ & Hn & _) Hnames]. cbn.
      apply String.eqb_neq in Hn. rewrite Hn. by exists names, dots.
  - rewrite (step_plain _ _ _ Hplain). exists (seg :: names), dots.
    split_and!; try done. by constructor.
Qed.

Lemma fold_wf (allow : bool) (segs st : list string) :
  Forall (λ seg, slashFree seg = true) segs →
  wfStack allow st → wfStack allow (fold_left (step allow) segs st).
Proof.
  intros Hsegs. revert st. induction Hsegs as [|seg segs Hseg _ IH]; [done|].
  intros st Hst. cbn. by apply IH, step_wf.
Qed.

Lemma normalizeSegments_wf (allow : bool) (s : string) :
  wfStack allow (normalizeSegments allow (split s)).
Proof.
  apply fold_wf; [apply split_segments|]. by exists [], [].
Qed.

(** **** Running the steps over the text of a stack gives the stack back *)

Lemma fold_plain (allow : bool) (segs st : list string) :
  Forall plain segs → fold_left (step allow) segs st = rev segs ++ st.
Proof.
  intros Hsegs. revert st. induction Hsegs as [|seg segs Hseg _ IH]; [done|].
  intros st. cbn [fold_left]. rewrite (step_plain _ _ _ Hseg), IH. cbn.
  by rewrite <- app_assoc.
Qed.

Lemma fold_dots (segs st : list string) :
  Forall (λ seg, seg = "..") segs → Forall (λ seg, seg = "..") st →
  fold_left (step true) segs st = rev segs ++ st.
Proof.
  intros Hsegs. revert st. induction Hsegs as [|seg segs -> _ IH]; [done|].
  intros st Hst. cbn [fold_left].
  assert (Hstep : step true st ".." = ".." :: st).
  { destruct Hst as [|d st -> _]; done. }
  rewrite Hstep, IH by (by constructor). cbn. by rewrite <- app_assoc.
Qed.

Lemma replay (allow : bool) (st : list string) :
  wfStack allow st → fold_left (step allow) (rev st) [] = st.
Proof.
  intros (names & dots & -> & Hnames & Hdots & Hallow).
  rewrite rev_app_distr, fold_left_app.
  assert (Hd : fold_left (step allow) (rev dots) [] = dots).
  { destruct allow.
    - rewrite fold_dots, rev_involutive, app_nil_r; try done.
      by apply Forall_rev.
    - by rewrite Hallow. }
  rewrite Hd, fold_plain, rev_involutive; [done|]. by apply Forall_rev.
Qed.

Lemma wf_segments (allow : bool) (st : list string) :
  wfStack allow st → Forall (λ seg, seg ≠ "" ∧ slashFree seg = true) st.
Proof.
  intros (names & dots & -> & Hnames & Hdots & _). apply Forall_app. split.
  - eapply Forall_impl; [exact Hnames|]. by intros seg (? & _ & _ & ?).
  - eapply Forall_impl; [exact Hdots|]. by intros seg ->.
Qed.
End NormalizeFacts.

Module JoinFacts.
Import Path PathFacts NormalizeFacts.

Lemma join_two (a b : string) :
  a ≠ "" → b ≠ "" → join a b = normalize (a +:+ String "/" b).
Proof.
  intros Ha Hb. unfold join, joinAll.
  rewrite filter_cons_True by done. rewrite filter_cons_True by done.
  reflexivity.
Qed.

Lemma normalize_nonempty (path : string) :
  path ≠ "" →
  normalize path
  = finish (startsWithSlash path) (endsWithSlash path)
      (normalizeSegments (negb (startsWithSlash path)) (split path)).
Proof.
  intros Hne. rewrite normalize_unfold.
  apply String.eqb_neq in Hne. by rewrite Hne.
Qed.

(** [join root "/"], from the stack of the segments of [root]. *)
Lemma join_separator (root : string) :
  root ≠ "" →
  join root "/"
  = finish (startsWithSlash root) true
      (normalizeSegments (negb (startsWithSlash root)) (split root)).
Proof.
  intros Hroot. rewrite join_two by done.
  rewrite normalize_nonempty by (by apply append_nonempty_r).
  rewrite startsWithSlash_append, endsWithSlash_append by done.
  unfold normalizeSegments. rewrite split_append, fold_left_app. reflexivity.
Qed.

(** [join root rest], from the same stack. *)
Lemma join_below (root rest : string) :
  root ≠ "" → rest ≠ "" →
  join root rest
  = finish (startsWithSlash root) (endsWithSlash rest)
      (fold_left (step (negb (startsWithSlash root))) (split rest)
         (normalizeSegments (negb (startsWithSlash root)) (split root))).
Proof.
  intros Hroot Hrest. rewrite join_two by done.
  rewrite normalize_nonempty by (by apply append_nonempty_r).
  rewrite startsWithSlash_append, endsWithSlash_append by done.
  unfold normalizeSegments. rewrite split_append, fold_left_app.
  f_equal. by destruct rest.
Qed.

Lemma startsWithSlash_slash (s : string) : startsWithSlash (String "/" s) = true.
Proof. reflexivity. Qed.

Lemma fold_empty_segment (allow : bool) (segs st : list string) :
  fold_left (step allow) ("" :: segs) st = fold_left (step allow) segs st.
Proof. reflexivity. Qed.

Lemma finish_cons (abs : bool) (st l : list string) (x : string) :
  rev st = x :: l → x ≠ "" →
  finish abs true st
  = if abs then String "/" (String.concat "/" (x :: l) +:+ "/")
    else String.concat "/" (x :: l) +:+ "/".
Proof.
  intros Hrev Hx. unfold finish. rewrite Hrev.
  pose proof (concat_nonempty x l Hx) as Hp.
  apply String.eqb_neq in Hp. rewrite Hp. by destruct abs.
Qed.

(** Normalizing the text of a stack followed by [rest] resumes the steps
    from that stack. *)
Lemma normalize_finish (abs : bool) (st : list string) (rest : string) :
  rest ≠ "" → wfStack (negb abs) st →
  normalize (finish abs true st +:+ rest)
  = finish abs (endsWithSlash rest)
      (fold_left (step (negb abs)) (split rest) st).
Proof.
  intros Hrest Hwf.
  rewrite normalize_nonempty by (by apply append_nonempty_r).
  rewrite endsWithSlash_append by done.
  pose proof (replay _ _ Hwf) as Hreplay.
  pose proof (wf_segments _ _ Hwf) as Hsegs.
  destruct (rev st) as [|x l] eqn:Hrev.
  - apply (f_equal (@rev string)) in Hrev. rewrite rev_involutive in Hrev.
    subst st. destruct abs.
    + change (finish true true (rev []) +:+ rest) with (String "/" rest).
      by rewrite split_slash.
    + change (finish false true (rev []) +:+ rest)
        with ("." +:+ String "/" rest).
      by rewrite split_append.
  - assert (Hxl : Forall (λ seg, seg ≠ "" ∧ slashFree seg = true) (x :: l))
      by (rewrite <- Hrev; by apply Forall_rev).
    apply Forall_cons in Hxl as Hx. destruct Hx as [[Hx Hxfree] _].
    assert (Hfree : Forall (λ seg, slashFree seg = true) (x :: l))
      by (eapply Forall_impl; [exact Hxl | by intros ? [_ ?]]).
    rewrite (finish_cons abs st l x Hrev Hx). destruct abs; cbn [negb] in *.
    + rewrite append_cons, append_assoc.
      change ("/" +:+ rest) with (String "/" rest).
      rewrite startsWithSlash_slash. cbn [negb]. f_equal.
      unfold normalizeSegments.
      rewrite split_slash, split_append, split_concat by done.
      by rewrite fold_empty_segment, fold_left_app, Hreplay.
    + rewrite append_assoc.
      change ("/" +:+ rest) with (String "/" rest).
      rewrite startsWithSlash_append, startsWithSlash_concat
        by (done || by apply concat_nonempty).
      cbn [negb]. f_equal. unfold normalizeSegments.
      rewrite split_append, split_concat by done.
      by rewrite fold_left_app, Hreplay.
Qed.

(** The rest of a normalized path after [join root "/"] resolves against
    [root] to that path. *)
Lemma join_rest (root rest : string) :
  root ≠ "" → rest ≠ "" →
  normalize (join root "/" +:+ rest) = join root rest.
Proof.
  intros Hroot Hrest.
  rewrite join_separator, join_below by done.
  apply normalize_finish; [done | apply normalizeSegments_wf].
Qed.
End JoinFacts.

(* ===================================================================== *)
(** ** Facts about JSON documents *)
(* ===================================================================== *)

Module JsonFacts.
Import Json.

Lemma get_set_eq (key : string) (v : value) (fields : list (string * value)) :
  get key (set key v fields) = Some v.
Proof.
  induction fields as [|[k old] fields IH]; cbn.
  - by rewrite String.eqb_refl.
  - destruct (String.eqb k key) eqn:E; cbn; by rewrite E.
Qed.

Lemma get_set_ne (key key' : string) (v : value) (fields : list (string * value)) :
  key' ≠ key → get key' (set key v fields) = get key' fields.
Proof.
  intros Hne. induction fields as [|[k old] fields IH]; cbn.
  - by apply String.eqb_neq in Hne; rewrite String.eqb_sym, Hne.
  - destruct (String.eqb k key) eqn:E; cbn.
    + apply String.eqb_eq in E as ->.
      by apply String.eqb_neq in Hne; rewrite String.eqb_sym, Hne.
    + by rewrite IH.
Qed.

Lemma set_keys (key : string) (v old : value) (fields : list (string * value)) :
  get key fields = Some old → (set key v fields).*1 = fields.*1.
Proof.
  induction fields as [|[k x] fields IH]; cbn; [done|].
  destruct (String.eqb k key); cbn; [done|]. intros H. by rewrite IH.
Qed.

Lemma set_set (key : string) (v v' : value) (fields : list (string * value)) :
  set key v (set key v' fields) = set key v fields.
Proof.
  induction fields as [|[k x] fields IH]; cbn.
  - by rewrite String.eqb_refl.
  - destruct (String.eqb k key) eqn:E; cbn; rewrite E; [done | by rewrite IH].
Qed.
End JsonFacts.

Module ReparseFacts.
Import Json.

Lemma reparse_idem (v : value) : reparse (reparse v) = reparse v.
Proof.
  revert v. fix IH 1. intros [ | b | x | s | items | fields].
  - reflexivity.
  - reflexivity.
  - destruct x; reflexivity.
  - reflexivity.
  - cbn. f_equal.
    induction items as [|item items IHitems]; cbn; [reflexivity|].
    rewrite (IH item), IHitems. reflexivity.
  - cbn. f_equal.
    induction fields as [|[k item] fields IHfields]; cbn; [reflexivity|].
    rewrite (IH item), IHfields. reflexivity.
Qed.

Lemma get_reparse (key : string) (fields : list (string * value)) :
  get key (List.map (λ kv, (kv.1, reparse kv.2)) fields)
  = reparse <$> get key fields.
Proof.
  induction fields as [|[k item] fields IH]; cbn; [done|].
  by destruct (String.eqb k key).
Qed.

Lemma set_same (key : string) (v : value) (fields : list (string * value)) :
  get key fields = Some v → set key v fields = fields.
Proof.
  induction fields as [|[k item] fields IH]; cbn; [done|].
  destruct (String.eqb k key); [by intros [= ->] | intros H; by rewrite IH].
Qed.

Lemma falsy_reparse (md : option value) :
  truthy md = false → truthy (reparse <$> md) = false.
Proof.
  destruct md as [[ | b | x | s | items | fields]|]; cbn; try done.
  by destruct x.
Qed.
End ReparseFacts.

Lemma patchDocument_object (fields md : list (string * Json.value)) (new : string) :
  Json.get "metadata" fields = Some (Json.JObject md) →
  patchDocument (Json.JObject fields) new
  = Normal (Json.JObject
              (Json.set "metadata"
                 (Json.JObject (Json.set "editorPath" (Json.JString new) md))
                 fields)).
Proof. intros H. unfold patchDocument. cbn. by rewrite H. Qed.

Lemma patchDocument_falsy (json : Json.value) (md : option Json.value) (new : string) :
  Json.getMember json "metadata" = Normal md →
  Json.truthy md = false →
  patchDocument json new = Normal json.
Proof. intros H1 H2. unfold patchDocument. by rewrite H1, H2. Qed.

Lemma patchDocument_reparse (json json' json'' : Json.value) (new : string) :
  patchDocument json new = Normal json' →
  patchDocument (Json.reparse json') new = Normal json'' →
  Json.reparse json'' = Json.reparse json'.
Proof.
  unfold patchDocument at 1.
  destruct json as [ | b | x | s | items | fields]; cbn; try done.
  - intros [= <-]. cbn. by intros [= <-].
  - intros [= <-]. destruct x; cbn; try done; by intros [= <-].
  - intros [= <-]. cbn. by intros [= <-].
  - intros [= <-]. unfold patchDocument. cbn. intros [= <-].
    apply (ReparseFacts.reparse_idem (Json.JArray items)).
  - destruct (Json.truthy (Json.get "metadata" fields)) eqn:Htruthy.
    + destruct (Json.get "metadata" fields) as [target|] eqn:Hget; [|done].
      assert (Hstable : ∀ fields' target',
                 Json.get "metadata" fields' = Some target' →
                 Json.truthy (Some (Json.reparse target')) = true →
                 Json.setMember (Json.reparse target') "editorPath" (Json.JString new)
                 = Normal (Json.reparse target') →
                 patchDocument (Json.reparse (Json.JObject fields')) new = Normal json'' →
                 Json.reparse json'' = Json.reparse (Json.JObject fields')).
      { intros fields' target' Hget' Htruthy' Hset'. unfold patchDocument.
        cbn [Json.reparse Json.getMember].
        rewrite ReparseFacts.get_reparse, Hget'. cbn [fmap option_fmap option_map].
        rewrite Htruthy', Hset', ReparseFacts.set_same
          by (by rewrite ReparseFacts.get_reparse, Hget').
        intros [= <-].
        apply (ReparseFacts.reparse_idem (Json.JObject fields')). }
      destruct target as [ | b | x | s | items | md]; cbn; try done.
      * intros [= <-]. apply (Hstable _ (Json.JArray items)); try done.
        apply JsonFacts.get_set_eq.
      * intros [= <-].
        apply (Hstable _ (Json.JObject (Json.set "editorPath" (Json.JString new) md)));
          try done; [apply JsonFacts.get_set_eq|].
        cbn. rewrite ReparseFacts.set_same; [done|].
        by rewrite ReparseFacts.get_reparse, JsonFacts.get_set_eq.
    + intros [= <-]. unfold patchDocument. cbn [Json.reparse Json.getMember].
      rewrite ReparseFacts.get_reparse, (ReparseFacts.falsy_reparse _ Htruthy).
      intros [= <-]. apply (ReparseFacts.reparse_idem (Json.JObject fields)).
Qed.

(* ===================================================================== *)
(** ** The run of [moveFile] *)
(* ===================================================================== *)

Section scan.
Variables root from new : string.

Lemma moveMaterial_run (w : World) (index : nat) (mat : Material) :
  materials w !! index = Some mat →
  moveMaterial root from new index mat w =
  (Normal (),
   if matchesFrom root from mat
   then withTrace
          (withMaterials w (<[index := assignEditorPath mat new]> (materials w)))
          (trace w ++ [SetEditorPath index new])
   else w).
Proof.
  intros Hi. unfold moveMaterial, matchesFrom.
  destruct (metadata mat ≫= editorPath) as [p|]; [|done].
  destruct (String.eqb p ""); [done|]. simpl.
  destruct (String.eqb (Path.join root p) from); [|done].
  unfold setEditorPath. by rewrite Hi.
Qed.

Lemma forIndices_run (suffix pre : list Material) (w : World) :
  materials w = pre ++ suffix →
  forIndices (seq (length pre) (length suffix)) (moveMaterial root from new) w =
  (Normal (),
   withTrace (withMaterials w (pre ++ (relocate root from new <$> suffix)))
             (trace w ++ relocations root from new (length pre) suffix)).
Proof.
  revert pre w. induction suffix as [|mat suffix IH]; intros pre w Hw.
  - destruct w; simpl in *. unfold ret, withTrace, withMaterials; simpl.
    by rewrite !app_nil_r, Hw, app_nil_r.
  - assert (Hi : materials w !! length pre = Some mat)
      by (rewrite Hw; apply list_lookup_middle; done).
    cbn [length seq forIndices].
    unfold mbind, M_bind, bind at 1. unfold bind at 1. unfold getWorld at 1.
    rewrite Hi, (moveMaterial_run _ _ _ Hi).
    set (w' := if matchesFrom root from mat then _ else w).
    assert (Hw' : materials w' = (pre ++ [relocate root from new mat]) ++ suffix).
    { subst w'. unfold relocate. destruct (matchesFrom root from mat); simpl.
      - rewrite Hw. rewrite <- (Nat.add_0_r (length pre)), insert_app_r.
        by rewrite <- app_assoc.
      - by rewrite Hw, <- app_assoc. }
    specialize (IH _ _ Hw'). rewrite length_app, Nat.add_1_r in IH.
    rewrite IH. f_equal. subst w'. unfold relocate.
    destruct w; destruct (matchesFrom root from mat) eqn:E;
      unfold withTrace, withMaterials; simpl; rewrite ?E; f_equal;
      rewrite <- ?app_assoc; done.
Qed.

Lemma forEach_run (w : World) :
  forEach (moveMaterial root from new) w =
  (Normal (),
   withTrace (withMaterials w (relocate root from new <$> materials w))
             (trace w ++ relocations root from new 0 (materials w))).
Proof.
  unfold forEach, mbind, M_bind, bind, getWorld.
  exact (forIndices_run (materials w) [] w eq_refl).
Qed.
End scan.

Lemma moveFile_run (w : World) (from to : string) :
  moveFile from to w = (Normal (), moved w from to).
Proof.
  unfold moveFile, mbind, M_bind. unfold bind at 1. unfold getWorld at 1.
  unfold bind at 1. rewrite forEach_run.
  unfold tryCatch, patchFile, await, readJSON, writeJSON, store, mbind, M_bind,
    bind, emit, getWorld, lift, throw, ret, moved, patched.
  destruct w as [root mats d [rf wf] t]; cbn.
  destruct rf; cbn; [by rewrite <- !app_assoc|].
  destruct (d !! from) as [[|json]|]; cbn; try by rewrite <- !app_assoc.
  destruct (patchDocument json _); cbn; [|by rewrite <- !app_assoc].
  destruct wf; cbn; unfold withDisk, withTrace; cbn;
    by rewrite <- !app_assoc.
Qed.

Lemma moveFile_materials (w : World) (from to : string) :
  materials (moveFile from to w).2 =
  relocate (assetsDirectory w) from (newEditorPath (assetsDirectory w) to)
    <$> materials w.
Proof. by rewrite moveFile_run. Qed.

Lemma moveFile_lookup (w : World) (from to : string) (index : nat) :
  materials (moveFile from to w).2 !! index =
  relocate (assetsDirectory w) from (newEditorPath (assetsDirectory w) to)
    <$> materials w !! index.
Proof. by rewrite moveFile_materials, list_lookup_fmap. Qed.

Lemma effects_run (w : World) (from to : string) :
  effects w from to =
  relocations (assetsDirectory w) from (newEditorPath (assetsDirectory w) to) 0
    (materials w)
  ++ ReadJSON from :: Await
     :: match patched w from (newEditorPath (assetsDirectory w) to) with
        | Some json' => [WriteJSON from json' writeOptions; Await]
        | None => []
        end.
Proof. unfold effects. rewrite moveFile_run. cbn. by rewrite drop_app_length. Qed.

Lemma relocations_elem (root from new : string) (mats : list Material)
  (k : nat) (e : Event) :
  e ∈ relocations root from new k mats →
  ∃ i mat, e = SetEditorPath (k + i) new ∧ mats !! i = Some mat
           ∧ matchesFrom root from mat = true.
Proof.
  revert k. induction mats as [|mat mats IH]; intros k; cbn.
  - by intros ?%elem_of_nil.
  - rewrite elem_of_app. intros [He|He].
    + destruct (matchesFrom root from mat) eqn:Hm.
      * apply list_elem_of_singleton in He. exists 0, mat.
        by rewrite Nat.add_0_r.
      * by apply elem_of_nil in He.
    + destruct (IH _ He) as (i & mat' & -> & Hi & Hm).
      exists (S i), mat'. by rewrite Nat.add_succ_r.
Qed.

Lemma relocations_all (root from new : string) (mats : list Material) (k : nat) :
  Forall (λ e, isSetEditorPath e = true) (relocations root from new k mats).
Proof.
  apply Forall_forall. intros e (i & mat & -> & _)%relocations_elem. done.
Qed.

Lemma matchesFrom_true (root from : string) (mat : Material) :
  matchesFrom root from mat = true ↔
  ∃ p, editorPathOf mat = Some p ∧ p ≠ "" ∧ Path.join root p = from.
Proof.
  unfold matchesFrom, editorPathOf.
  destruct (metadata mat ≫= editorPath) as [p|].
  - rewrite andb_true_iff, negb_true_iff, String.eqb_neq, String.eqb_eq.
    split.
    + intros [Hne Hj]. by exists p.
    + intros (q & [= <-] & Hne & Hj). done.
  - split; [done | by intros (q & [=] & _)].
Qed.

Lemma editorPathOf_assign (mat : Material) (p new : string) :
  editorPathOf mat = Some p →
  editorPathOf (assignEditorPath mat new) = Some new.
Proof.
  unfold editorPathOf, assignEditorPath.
  by destruct (metadata mat).
Qed.

Lemma moveFile_matched (w : World) (from to : string) (index : nat) (mat : Material) :
  materials w !! index = Some mat →
  matchesFrom (assetsDirectory w) from mat = true →
  materials (moveFile from to w).2 !! index
  = Some (assignEditorPath mat (newEditorPath (assetsDirectory w) to)).
Proof.
  intros Hi Hm. rewrite moveFile_lookup, Hi. cbn. unfold relocate. by rewrite Hm.
Qed.

Lemma assignEditorPath_rest (mat : Material) (new : string) :
  name (assignEditorPath mat new) = name mat
  ∧ otherMetadata <$> metadata (assignEditorPath mat new)
    = otherMetadata <$> metadata mat.
Proof.
  unfold assignEditorPath.
  destruct (metadata mat) eqn:E; cbn; rewrite ?E; done.
Qed.

Lemma matchesFrom_false (root from : string) (mat : Material) :
  matchesFrom root from mat = false ↔
  editorPathOf mat = None ∨ editorPathOf mat = Some ""
  ∨ ∃ p, editorPathOf mat = Some p ∧ Path.join root p ≠ from.
Proof.
  unfold matchesFrom, editorPathOf.
  destruct (metadata mat ≫= editorPath) as [p|]; [|by split; [left|]].
  rewrite andb_false_iff, negb_false_iff, String.eqb_eq, String.eqb_neq.
  split.
  - intros [->|Hj]; [by right; left | right; right; by exists p].
  - intros [[=]|[[= ->]|(q & [= <-] & Hj)]]; [by left | by right].
Qed.

Lemma effects_scan (w : World) (from to : string) (index : nat) (path : string) :
  SetEditorPath index path ∈ effects w from to →
  ∃ mat, path = newEditorPath (assetsDirectory w) to
         ∧ materials w !! index = Some mat
         ∧ matchesFrom (assetsDirectory w) from mat = true.
Proof.
  rewrite effects_run, elem_of_app.
  intros [(i & mat & [= <- ->] & Hi & Hm)%relocations_elem | He]; [by exists mat|].
  exfalso. destruct (patched _ _ _);
    repeat (apply elem_of_cons in He as [[=] | He]); by apply elem_of_nil in He.
Qed.

Lemma moveFile_unmatched (w : World) (from to : string) (index : nat) (mat : Material) :
  materials w !! index = Some mat →
  matchesFrom (assetsDirectory w) from mat = false →
  materials (moveFile from to w).2 !! index = Some mat
  ∧ ∀ path, SetEditorPath index path ∉ effects w from to.
Proof.
  intros Hi Hm. split.
  - rewrite moveFile_lookup, Hi. cbn. unfold relocate. by rewrite Hm.
  - intros path (mat' & _ & Hi' & Hm')%effects_scan. congruence.
Qed.

Lemma patched_object
  (w : World) (from new : string) (fields md : list (string * Json.value)) :
  readFails (faults w) = false →
  disk w !! from = Some (Document (Json.JObject fields)) →
  Json.get "metadata" fields = Some (Json.JObject md) →
  patched w from new
  = Some (Json.JObject
            (Json.set "metadata"
               (Json.JObject (Json.set "editorPath" (Json.JString new) md))
               fields)).
Proof.
  intros Hread Hdoc Hmd. unfold patched.
  by rewrite Hread, Hdoc, (patchDocument_object _ _ _ Hmd).
Qed.

Lemma moveFile_writes (w : World) (from to : string) :
  List.filter isWriteJSON (effects w from to)
  = match patched w from (newEditorPath (assetsDirectory w) to) with
    | Some json' => [WriteJSON from json' writeOptions]
    | None => []
    end.
Proof.
  rewrite effects_run, List.filter_app.
  assert (Hnone : ∀ root new k mats,
             List.filter isWriteJSON (relocations root from new k mats) = []).
  { intros root new k mats. revert k.
    induction mats as [|mat mats IH]; intros k; cbn; [done|].
    rewrite List.filter_app, IH. by destruct (matchesFrom root from mat). }
  rewrite Hnone. cbn. by destruct (patched _ _ _).
Qed.

Lemma moveFile_disk_other (w : World) (from to file : string) :
  file ≠ from → disk (moveFile from to w).2 !! file = disk w !! file.
Proof.
  intros Hfile. rewrite moveFile_run. cbn.
  destruct (patched _ _ _); [|done].
  destruct (writeFails _); [done|]. by rewrite lookup_insert_ne.
Qed.

Lemma moveFile_disk (w : World) (from to : string) :
  disk (moveFile from to w).2
  = match patched w from (newEditorPath (assetsDirectory w) to) with
    | Some json' =>
        if writeFails (faults w) then disk w
        else <[from := Document (Json.reparse json')]> (disk w)
    | None => disk w
    end.
Proof. by rewrite moveFile_run. Qed.

Lemma newEditorPath_absent (root to : string) :
  JsString.includes to (Path.join root "/") = false →
  newEditorPath root to = to.
Proof. apply JsStringFacts.replace_absent. Qed.

Lemma effects_assignments (w : World) (from to : string) (index : nat) (path : string) :
  SetEditorPath index path ∈ effects w from to →
  path = newEditorPath (assetsDirectory w) to.
Proof.
  by intros (mat & -> & _)%effects_scan.
Qed.

Lemma assignEditorPath_twice (mat : Material) (new : string) :
  assignEditorPath (assignEditorPath mat new) new = assignEditorPath mat new.
Proof. unfold assignEditorPath. destruct (metadata mat) eqn:E; cbn; by rewrite ?E. Qed.

Lemma matchesFrom_assign (root from new : string) (mat : Material) :
  matchesFrom root from mat = true →
  matchesFrom root from (assignEditorPath mat new)
  = negb (String.eqb new "") && String.eqb (Path.join root new) from.
Proof.
  intros (p & Hp & _)%matchesFrom_true.
  pose proof (editorPathOf_assign mat p new Hp) as Hnew.
  unfold matchesFrom. fold (editorPathOf (assignEditorPath mat new)).
  by rewrite Hnew.
Qed.

Lemma relocate_twice (root from new : string) (mat : Material) :
  relocate root from new (relocate root from new mat) = relocate root from new mat.
Proof.
  unfold relocate. destruct (matchesFrom root from mat) eqn:Hm; [|by rewrite Hm].
  destruct (matchesFrom _ _ (assignEditorPath _ _));
    [apply assignEditorPath_twice | done].
Qed.

Lemma relocations_none (root from new : string) (mats : list Material) (k : nat) :
  Forall (λ mat, matchesFrom root from mat = false) mats →
  relocations root from new k mats = [].
Proof.
  intros H. revert k. induction H as [|mat mats Hm _ IH]; intros k; cbn; [done|].
  by rewrite Hm, IH.
Qed.

Lemma relocate_settles (root from new : string) (mats : list Material) :
  new = "" ∨ Path.join root new ≠ from →
  Forall (λ mat, matchesFrom root from mat = false) (relocate root from new <$> mats).
Proof.
  intros Hnew. apply Forall_fmap, Forall_forall. intros mat _. cbn.
  unfold relocate. destruct (matchesFrom root from mat) eqn:Hm; [|done].
  rewrite (matchesFrom_assign _ _ _ _ Hm). destruct Hnew as [-> | Hne]; [done|].
  apply String.eqb_neq in Hne. rewrite Hne. apply andb_false_r.
Qed.

Lemma patched_withFaults (w : World) (from new : string) (f : Faults) :
  patched (withFaults w f) from new
  = if readFails f then None else patched (withFaults w noFaults) from new.
Proof. unfold patched. cbn. by destruct (readFails f). Qed.

Lemma patched_after_write
  (w : World) (from to : string) (json' json'' : Json.value) (f : Faults) :
  let new := newEditorPath (assetsDirectory w) to in
  patched w from new = Some json' →
  writeFails (faults w) = false →
  patched (withFaults (moveFile from to w).2 f) from new = Some json'' →
  Json.reparse json'' = Json.reparse json'.
Proof.
  intros new Hp Hwrite. unfold patched at 1.
  rewrite moveFile_run. cbn. fold new. rewrite Hp, Hwrite.
  destruct (readFails f); [done|]. rewrite lookup_insert_eq.
  destruct (patchDocument (Json.reparse json') new) as [j|] eqn:Hsecond; [|done].
  intros [= <-]. unfold patched in Hp.
  destruct (readFails (faults w)); [done|].
  destruct (disk w !! from) as [[|json]|]; try done.
  destruct (patchDocument json new) as [j'|] eqn:Hfirst; [|done].
  injection Hp as ->. by eapply patchDocument_reparse.
Qed.

Lemma patched_same_disk (w w' : World) (from new : string) :
  disk w' = disk w → faults w' = faults w →
  patched w' from new = patched w from new.
Proof. intros Hd Hf. unfold patched. by rewrite Hd, Hf. Qed.

Lemma patched_no_faults (w : World) (from new : string) :
  faults w = noFaults → patched (withFaults w noFaults) from new = patched w from new.
Proof. intros Hf. by apply patched_same_disk. Qed.

(* ===================================================================== *)
(** ** The claims *)
(* ===================================================================== *)

(** *** C1 *)



(** *** C2 *)

(** C2. A reference that has no [editorPath], or whose [editorPath] joins
    with the asset root to a path other than [from], is the same after
    [moveFile from to] as before. *)
Theorem moveFile_leaves_other_references
  (w : World) (from to : string) (index : nat) (mat : Material) :
  materials w !! index = Some mat →
  (editorPathOf mat = None
   ∨ ∃ p, editorPathOf mat = Some p ∧ Path.join (assetsDirectory w) p ≠ from) →
  materials (moveFile from to w).2 !! index = Some mat.
Proof.
  intros Hi Hother. apply moveFile_unmatched; [done|].
  apply matchesFrom_false. destruct Hother as [?|?]; [by left | by right; right].
Qed.

(** In the sample scene the reference to another file and the material
    without metadata stay as they are. *)
Lemma moveFile_leaves_other_references_witness :
  materials (moveFile sampleFrom sampleTo sampleWorld).2 !! 1
  = Some (mkMaterial "stone" (Some "mats/stone.material"))
  ∧ materials (moveFile sampleFrom sampleTo sampleWorld).2 !! 4
    = Some {| name := "default"; metadata := None |}.
Proof.
  split.
  - apply (moveFile_leaves_other_references sampleWorld sampleFrom sampleTo 1);
      [reflexivity|].
    right. exists "mats/stone.material". split; [reflexivity | discriminate].
  - apply (moveFile_leaves_other_references sampleWorld sampleFrom sampleTo 4);
      [reflexivity|].
    left. reflexivity.
Defined.

(** *** C3 *)

(** C3. Whatever the disk holds at [from] (nothing, a text that is no JSON,
    any document) and whether or not the read or the write fails, the promise
    of [moveFile from to] is fulfilled and the update of the scene is made:
    every reference whose [editorPath] joins with the asset root to [from]
    carries the new stored path afterwards, and the materials are those the
    scan of the collection alone produces, the same for every disk and
    every failure. *)
Theorem moveFile_never_rejects (w : World) (from to : string) :
  (moveFile from to w).1 = Normal ()
  ∧ materials (moveFile from to w).2
    = materials
        (forEach (moveMaterial (assetsDirectory w) from
                    (newEditorPath (assetsDirectory w) to)) w).2
  ∧ (∀ d f, materials (moveFile from to (withFaults (withDisk w d) f)).2
            = materials (moveFile from to w).2)
  ∧ (∀ d f, (moveFile from to (withFaults (withDisk w d) f)).1 = Normal ())
  ∧ (∀ d f index mat p,
       materials w !! index = Some mat →
       editorPathOf mat = Some p →
       p ≠ "" →
       Path.join (assetsDirectory w) p = from →
       ∃ mat',
         materials (moveFile from to (withFaults (withDisk w d) f)).2 !! index
         = Some mat'
         ∧ editorPathOf mat' = Some (newEditorPath (assetsDirectory w) to)
         ∧ name mat' = name mat
         ∧ otherMetadata <$> metadata mat' = otherMetadata <$> metadata mat).
Proof.
  split_and!.
  - by rewrite moveFile_run.
  - by rewrite moveFile_run, forEach_run.
  - intros d f. by rewrite !moveFile_materials.
  - intros d f. by rewrite moveFile_run.
  - intros d f index mat p Hi Hp Hne Hjoin.
    assert (Hm : matchesFrom (assetsDirectory w) from mat = true)
      by (apply matchesFrom_true; eauto).
    eexists. split; [by apply (moveFile_matched (withFaults (withDisk w d) f))|].
    rewrite (editorPathOf_assign _ _ _ Hp).
    destruct (assignEditorPath_rest mat (newEditorPath (assetsDirectory w) to))
      as [Hname Hother].
    by split_and!.
Qed.

(** With a disk that holds nothing, cannot be read and cannot be written,
    the move of the sample scene is fulfilled all the same, and both
    references to the moved file carry the new path. *)
Lemma moveFile_never_rejects_witness :
  (moveFile sampleFrom sampleTo brokenDiskWorld).1 = Normal ()
  ∧ (∃ mat',
       materials (moveFile sampleFrom sampleTo brokenDiskWorld).2 !! 0 = Some mat'
       ∧ editorPathOf mat' = Some "mats/new.material"
       ∧ name mat' = "wood"
       ∧ otherMetadata <$> metadata mat' = Some [("tags", Json.JArray [])])
  ∧ (∃ mat',
       materials (moveFile sampleFrom sampleTo brokenDiskWorld).2 !! 2 = Some mat'
       ∧ editorPathOf mat' = Some "mats/new.material"
       ∧ name mat' = "wood-copy"
       ∧ otherMetadata <$> metadata mat' = Some [("tags", Json.JArray [])]).
Proof.
  destruct (moveFile_never_rejects sampleWorld sampleFrom sampleTo)
    as (_ & _ & _ & Hfulfilled & Hupdated).
  split_and!.
  - apply Hfulfilled.
  - apply (Hupdated ∅ {| readFails := true; writeFails := true |} 0
             (mkMaterial "wood" (Some "mats/old.material")) "mats/old.material");
      [reflexivity | reflexivity | discriminate | reflexivity].
  - apply (Hupdated ∅ {| readFails := true; writeFails := true |} 2
             (mkMaterial "wood-copy" (Some "mats/./old.material"))
             "mats/./old.material");
      [reflexivity | reflexivity | discriminate | reflexivity].
Defined.

(** *** C4 *)

(** C4, as it is written, fails: the document without [metadata] is written
    back all the same. *)
Lemma document_without_metadata_is_written :
  ¬ writesNothingWithoutMetadata bareWorld sampleFrom sampleTo.
Proof.
  intros H.
  destruct (H bareDocument)
    as [Hwrites _]; [vm_compute; reflexivity | reflexivity |].
  vm_compute in Hwrites. discriminate Hwrites.
Qed.

(** C4, as amended. When the document at [from] is read and its [metadata]
    is absent (or falsy), the call hands the document to [writeJSON] as it
    was read, at the path [from], and returns; unless the write fails, the
    disk holds that document at [from] afterwards. *)
Theorem moveFile_rewrites_document_without_metadata
  (w : World) (from to : string) (json : Json.value) (md : option Json.value) :
  readFails (faults w) = false →
  disk w !! from = Some (Document json) →
  Json.getMember json "metadata" = Normal md →
  Json.truthy md = false →
  (moveFile from to w).1 = Normal ()
  ∧ List.filter isWriteJSON (effects w from to)
    = [WriteJSON from json {| spaces := TAB; encoding := "utf-8" |}]
  ∧ (writeFails (faults w) = false →
     disk (moveFile from to w).2
     = <[from := Document (Json.reparse json)]> (disk w)).
Proof.
  intros Hread Hdoc Hmd Hfalsy.
  assert (Hp : patched w from (newEditorPath (assetsDirectory w) to) = Some json).
  { unfold patched. by rewrite Hread, Hdoc, (patchDocument_falsy _ _ _ Hmd Hfalsy). }
  split_and!.
  - by rewrite moveFile_run.
  - by rewrite moveFile_writes, Hp.
  - intros Hwrite. by rewrite moveFile_disk, Hp, Hwrite.
Qed.

(** The document [{"alpha": -0}] is handed to [writeJSON] as it was read. *)
Lemma moveFile_rewrites_document_without_metadata_witness :
  (moveFile sampleFrom sampleTo bareWorld).1 = Normal ()
  ∧ List.filter isWriteJSON (effects bareWorld sampleFrom sampleTo)
    = [WriteJSON sampleFrom bareDocument
         {| spaces := TAB; encoding := "utf-8" |}]
  ∧ (writeFails (faults bareWorld) = false →
     disk (moveFile sampleFrom sampleTo bareWorld).2
     = <[sampleFrom := Document (Json.reparse bareDocument)]>
         (disk bareWorld)).
Proof.
  apply (moveFile_rewrites_document_without_metadata bareWorld sampleFrom sampleTo
           bareDocument None);
    [reflexivity | vm_compute; reflexivity | reflexivity | reflexivity].
Defined.

(** *** C5 *)

(** C5, as amended. A second call with the same [from] and [to], made under
    the same I/O conditions (or under any, when the first call met no
    failure), leaves the materials and the disk as the first call left
    them. Its scan assigns nothing provided the new stored path is empty or
    does not itself join with the asset root to [from]; this is so, in
    particular, when [to] is a normalized path below a non-empty asset root
    and differs from [from]. *)
Theorem moveFile_twice (w : World) (from to : string) (f2 : Faults) :
  faults w = noFaults ∨ f2 = faults w →
  materials (moveFile from to (withFaults (moveFile from to w).2 f2)).2
  = materials (moveFile from to w).2
  ∧ disk (moveFile from to (withFaults (moveFile from to w).2 f2)).2
    = disk (moveFile from to w).2
  ∧ (newEditorPath (assetsDirectory w) to = ""
     ∨ Path.join (assetsDirectory w) (newEditorPath (assetsDirectory w) to) ≠ from →
     List.filter isSetEditorPath
       (effects (withFaults (moveFile from to w).2 f2) from to) = [])
  ∧ (∀ rest,
       assetsDirectory w ≠ "" → rest ≠ "" →
       to = Path.join (assetsDirectory w) "/" +:+ rest →
       Path.normalize to = to →
       to ≠ from →
       List.filter isSetEditorPath
         (effects (withFaults (moveFile from to w).2 f2) from to) = []).
Proof.
  intros Hfaults.
  set (new := newEditorPath (assetsDirectory w) to).
  set (w1 := (moveFile from to w).2).
  assert (Hroot : assetsDirectory (withFaults w1 f2) = assetsDirectory w)
    by (subst w1; by rewrite moveFile_run).
  assert (Hmats : materials (withFaults w1 f2)
                  = relocate (assetsDirectory w) from new <$> materials w)
    by (subst w1; by rewrite moveFile_run).
  assert (Hscan : new = "" ∨ Path.join (assetsDirectory w) new ≠ from →
                  List.filter isSetEditorPath (effects (withFaults w1 f2) from to) = []).
  { intros Hnew. rewrite effects_run, Hroot, Hmats. fold new.
    rewrite (relocations_none _ _ _ _ _ (relocate_settles _ _ _ _ Hnew)).
    cbn. by destruct (patched _ _ _). }
  split_and!.
  - rewrite moveFile_materials, Hroot, Hmats. fold new. subst w1.
    rewrite moveFile_materials. fold new.
    rewrite <- list_fmap_compose. apply list_fmap_ext. intros ? mat _.
    apply relocate_twice.
  - rewrite moveFile_disk, Hroot. fold new.
    change (disk (withFaults w1 f2)) with (disk w1).
    change (faults (withFaults w1 f2)) with f2.
    destruct (patched (withFaults w1 f2) from new) as [json''|] eqn:Hsecond; [|done].
    destruct (writeFails f2) eqn:Hwrite2; [done|].
    destruct (patched w from new) as [json'|] eqn:Hfirst.
    + destruct (writeFails (faults w)) eqn:Hwrite1.
      * destruct Hfaults as [Hnone | ->]; [by rewrite Hnone in Hwrite1 | congruence].
      * pose proof (patched_after_write w from to json' json'' f2 Hfirst Hwrite1 Hsecond)
          as Hsame.
        subst w1. rewrite moveFile_disk. fold new.
        rewrite Hfirst, Hwrite1, insert_insert_eq. by rewrite Hsame.
    + exfalso. rewrite patched_withFaults in Hsecond.
      destruct (readFails f2) eqn:Hread2; [done|].
      assert (Hdisk : disk w1 = disk w)
        by (subst w1; rewrite moveFile_disk; fold new; by rewrite Hfirst).
      rewrite (patched_same_disk (withFaults w noFaults) (withFaults w1 noFaults))
        in Hsecond by done.
      destruct Hfaults as [Hnone | ->].
      * rewrite (patched_no_faults _ _ _ Hnone) in Hsecond. congruence.
      * unfold patched in Hfirst, Hsecond. cbn in Hsecond.
        rewrite Hread2 in Hfirst. congruence.
  - exact Hscan.
  - intros rest Hne Hrest Hto Hnorm Hdiff. apply Hscan. right.
    assert (Hnew : new = rest).
    { subst new. rewrite Hto. unfold newEditorPath.
      by rewrite JsStringFacts.replace_prefix. }
    rewrite Hnew, <- JoinFacts.join_rest, <- Hto, Hnorm by done. exact Hdiff.
Qed.

(** The sample move, made twice. *)
Lemma moveFile_twice_witness :
  materials (moveFile sampleFrom sampleTo
               (withFaults (moveFile sampleFrom sampleTo sampleWorld).2 noFaults)).2
  = materials (moveFile sampleFrom sampleTo sampleWorld).2
  ∧ disk (moveFile sampleFrom sampleTo
            (withFaults (moveFile sampleFrom sampleTo sampleWorld).2 noFaults)).2
    = disk (moveFile sampleFrom sampleTo sampleWorld).2
  ∧ List.filter isSetEditorPath
      (effects (withFaults (moveFile sampleFrom sampleTo sampleWorld).2 noFaults)
         sampleFrom sampleTo) = [].
Proof.
  destruct (moveFile_twice sampleWorld sampleFrom sampleTo noFaults
              (or_intror eq_refl)) as (Hmats & Hdisk & _ & Hscan).
  split_and!; [exact Hmats | exact Hdisk |].
  apply (Hscan "mats/new.material");
    [discriminate | discriminate | reflexivity | reflexivity | discriminate].
Defined.

(** C5, as it is written, fails: when [to] is [from] itself, the references
    updated by the first call still resolve to [from], and the second scan
    matches them again. *)
Lemma second_scan_matches_again :
  ¬ secondCallMatchesNothing sampleWorld sampleFrom sampleFrom.
Proof.
  intros (_ & _ & Hscan). vm_compute in Hscan. discriminate Hscan.
Qed.

(** The same happens for a move out of the asset root to the path that
    mirrors the old one: the stored path [/tmp/a.material] joins with the
    root to [from] again. *)
Example second_scan_matches_outside_root :
  List.filter isSetEditorPath
    (effects (moveFile "/proj/assets/tmp/a.material" "/tmp/a.material"
                {| assetsDirectory := sampleRoot;
                   materials := [mkMaterial "a" (Some "tmp/a.material")];
                   disk := ∅; faults := noFaults; trace := [] |}).2
       "/proj/assets/tmp/a.material" "/tmp/a.material")
  = [SetEditorPath 0 "/tmp/a.material"].
Proof. vm_compute. reflexivity. Qed.

(** *** C6 *)

(** C6, as it is written, fails: for a [to] outside the asset root the new
    stored path is [to] itself, which resolves against the asset root to a
    path below the root, not to [to]. *)
Lemma destination_outside_root_is_not_relative :
  ¬ computesRelativePath "/proj/assets" "/tmp/new.material".
Proof. vm_compute. discriminate. Qed.

(** C6, as amended. For a [to] that starts with the asset root followed by a
    separator, the new stored path is the rest of [to], and this is what the
    scan assigns; when moreover [to] is a normalized path, the asset root is
    not the empty string and that rest is not empty, the rest resolves
    against the asset root to [to]. *)
Theorem moveFile_stores_rest_of_destination (w : World) (from to rest : string) :
  to = Path.join (assetsDirectory w) "/" +:+ rest →
  newEditorPath (assetsDirectory w) to = rest
  ∧ (∀ index path, SetEditorPath index path ∈ effects w from to → path = rest)
  ∧ (assetsDirectory w ≠ "" → rest ≠ "" → Path.normalize to = to →
     resolvesTo (assetsDirectory w) rest to).
Proof.
  intros Hto.
  assert (Hnew : newEditorPath (assetsDirectory w) to = rest).
  { rewrite Hto. unfold newEditorPath. by rewrite JsStringFacts.replace_prefix. }
  split_and!; [done | |].
  - intros index path Hin. apply effects_assignments in Hin. congruence.
  - intros Hroot Hrest Hnorm. unfold resolvesTo.
    rewrite <- JoinFacts.join_rest by done. by rewrite <- Hto.
Qed.

(** The sample move stores ["mats/new.material"], which resolves to [to]. *)
Lemma moveFile_stores_rest_of_destination_witness :
  newEditorPath sampleRoot sampleTo = "mats/new.material"
  ∧ (∀ index path,
       SetEditorPath index path ∈ effects sampleWorld sampleFrom sampleTo →
       path = "mats/new.material")
  ∧ resolvesTo sampleRoot "mats/new.material" sampleTo.
Proof.
  destruct (moveFile_stores_rest_of_destination sampleWorld sampleFrom sampleTo
              "mats/new.material" eq_refl) as (Hnew & Hscan & Hresolves).
  split_and!; [exact Hnew | exact Hscan |].
  apply Hresolves; [discriminate | discriminate | reflexivity].
Defined.

(** *** C7 *)

(** C7. When the document at [from] is read and its [metadata] is an object,
    the call hands [writeJSON] the path [from] (and no other path), the
    options [spaces: "\t"] and [encoding: "utf-8"], and the document in which
    [metadata.editorPath] is the new stored path while every other property,
    of the document and of its [metadata], is as it was read, in the same
    order; unless the write fails, that document is what the disk holds at
    [from] afterwards, and no other file of the disk, [to] included, is
    touched. *)
Theorem moveFile_patches_document
  (w : World) (from to : string) (fields md : list (string * Json.value)) :
  readFails (faults w) = false →
  disk w !! from = Some (Document (Json.JObject fields)) →
  Json.get "metadata" fields = Some (Json.JObject md) →
  ∃ fields' md',
    (moveFile from to w).1 = Normal ()
    ∧ List.filter isWriteJSON (effects w from to)
      = [WriteJSON from (Json.JObject fields')
           {| spaces := TAB; encoding := "utf-8" |}]
    ∧ Json.get "metadata" fields' = Some (Json.JObject md')
    ∧ Json.get "editorPath" md'
      = Some (Json.JString (newEditorPath (assetsDirectory w) to))
    ∧ (∀ key, key ≠ "editorPath" → Json.get key md' = Json.get key md)
    ∧ (∀ key, key ≠ "metadata" → Json.get key fields' = Json.get key fields)
    ∧ fields'.*1 = fields.*1
    ∧ (writeFails (faults w) = false →
       disk (moveFile from to w).2
       = <[from := Document (Json.reparse (Json.JObject fields'))]> (disk w))
    ∧ (∀ file, file ≠ from → disk (moveFile from to w).2 !! file = disk w !! file).
Proof.
  intros Hread Hdoc Hmd.
  set (new := newEditorPath (assetsDirectory w) to).
  pose proof (patched_object w from new fields md Hread Hdoc Hmd) as Hp.
  eexists _, _. split_and!.
  - by rewrite moveFile_run.
  - rewrite moveFile_writes. fold new. by rewrite Hp.
  - apply JsonFacts.get_set_eq.
  - apply JsonFacts.get_set_eq.
  - intros key Hkey. by apply JsonFacts.get_set_ne.
  - intros key Hkey. by apply JsonFacts.get_set_ne.
  - by eapply JsonFacts.set_keys.
  - intros Hwrite. rewrite moveFile_disk. fold new. by rewrite Hp, Hwrite.
  - intros file Hfile. by apply moveFile_disk_other.
Qed.

(** The sample document, patched. *)
Lemma moveFile_patches_document_witness :
  ∃ fields' md',
    (moveFile sampleFrom sampleTo sampleWorld).1 = Normal ()
    ∧ List.filter isWriteJSON (effects sampleWorld sampleFrom sampleTo)
      = [WriteJSON sampleFrom (Json.JObject fields')
           {| spaces := TAB; encoding := "utf-8" |}]
    ∧ Json.get "metadata" fields' = Some (Json.JObject md')
    ∧ Json.get "editorPath" md'
      = Some (Json.JString (newEditorPath sampleRoot sampleTo))
    ∧ (∀ key, key ≠ "editorPath" →
         Json.get key md'
         = Json.get key [("editorPath", Json.JString "mats/old.material");
                         ("tags", Json.JArray [])])
    ∧ (∀ key, key ≠ "metadata" →
         Json.get key fields'
         = Json.get key [("customType", Json.JString "BABYLON.PBRMaterial");
                         ("metadata",
                          Json.JObject [("editorPath", Json.JString "mats/old.material");
                                        ("tags", Json.JArray [])]);
                         ("alpha", Json.JNumber (S754_finite false 1 0))])
    ∧ fields'.*1 = ["customType"; "metadata"; "alpha"]
    ∧ (writeFails (faults sampleWorld) = false →
       disk (moveFile sampleFrom sampleTo sampleWorld).2
       = <[sampleFrom := Document (Json.reparse (Json.JObject fields'))]>
           (disk sampleWorld))
    ∧ (∀ file, file ≠ sampleFrom →
         disk (moveFile sampleFrom sampleTo sampleWorld).2 !! file
         = disk sampleWorld !! file).
Proof.
  apply (moveFile_patches_document sampleWorld sampleFrom sampleTo
           [("customType", Json.JString "BABYLON.PBRMaterial");
            ("metadata",
             Json.JObject [("editorPath", Json.JString "mats/old.material");
                           ("tags", Json.JArray [])]);
            ("alpha", Json.JNumber (S754_finite false 1 0))]
           [("editorPath", Json.JString "mats/old.material");
            ("tags", Json.JArray [])]);
    [reflexivity | vm_compute; reflexivity | reflexivity].
Defined.

(** *** C8 *)

(** C8. The effects of a call come in this order: first the assignments to
    the materials, all of them, then the call of [readJSON] on [from], and
    only then the first suspension of the method; no assignment comes after.
    So the materials are changed in the synchronous part of the call, before
    the read is started, and when the read is started they are already what
    they are at the end. *)
Theorem moveFile_mutates_before_reading (w : World) (from to : string) :
  ∃ assignments rest,
    effects w from to = assignments ++ ReadJSON from :: Await :: rest
    ∧ Forall (λ e, isSetEditorPath e = true) assignments
    ∧ Forall (λ e, isSetEditorPath e = false) rest
    ∧ (forEach (moveMaterial (assetsDirectory w) from
                  (newEditorPath (assetsDirectory w) to)) w).2
      = withTrace (withDisk (moveFile from to w).2 (disk w))
                  (trace w ++ assignments).
Proof.
  eexists _, _. split; [apply effects_run|]. split_and!.
  - apply relocations_all.
  - destruct (patched _ _ _); repeat constructor.
  - rewrite forEach_run, moveFile_run. by destruct w.
Qed.

(** *** C9 *)

(** C9. A reference whose [editorPath] is the empty string is handled as one
    that has none: for every [from] and [to] the call returns, the reference
    is the same afterwards, and no assignment to it takes place. *)
Theorem moveFile_skips_empty_editorPath
  (w : World) (from to : string) (index : nat) (mat : Material) :
  materials w !! index = Some mat →
  editorPathOf mat = Some "" →
  (moveFile from to w).1 = Normal ()
  ∧ materials (moveFile from to w).2 !! index = Some mat
  ∧ ∀ path, SetEditorPath index path ∉ effects w from to.
Proof.
  intros Hi Hp. split; [by rewrite moveFile_run|].
  apply moveFile_unmatched; [done|].
  apply matchesFrom_false. by right; left.
Qed.

(** A move of the asset root itself: the empty [editorPath] joins with the
    root to [from], and is skipped all the same. *)
Lemma moveFile_skips_empty_editorPath_witness :
  (moveFile "/proj/assets" sampleTo sampleWorld).1 = Normal ()
  ∧ materials (moveFile "/proj/assets" sampleTo sampleWorld).2 !! 5
    = Some (mkMaterial "blank" (Some ""))
  ∧ ∀ path, SetEditorPath 5 path ∉ effects sampleWorld "/proj/assets" sampleTo.
Proof.
  apply (moveFile_skips_empty_editorPath sampleWorld "/proj/assets" sampleTo 5);
    reflexivity.
Defined.

(** *** C10 *)

(** C10, as it is written, fails: [replace] removes the asset root where it
    first occurs, also in the middle of [to]. *)
Lemma root_inside_destination_is_removed :
  ¬ storesDestinationUnmodified sampleWorld sampleFrom
      "/backup/proj/assets/mats/new.material".
Proof.
  intros H.
  destruct (H eq_refl 0 (mkMaterial "wood" (Some "mats/old.material"))
              "mats/old.material" eq_refl eq_refl) as (mat' & Hmat' & Hpath);
    [discriminate | reflexivity |].
  vm_compute in Hmat'. injection Hmat' as <-. vm_compute in Hpath.
  discriminate Hpath.
Qed.

(** C10, as amended. When the asset root followed by a separator occurs
    nowhere in [to], the new stored path is [to] itself: every matching
    reference carries [to] afterwards, every assignment of the scan assigns
    [to], and the document handed to [writeJSON] has [to] as its
    [metadata.editorPath]. *)
Theorem moveFile_keeps_destination_without_root
  (w : World) (from to : string) :
  JsString.includes to (Path.join (assetsDirectory w) "/") = false →
  newEditorPath (assetsDirectory w) to = to
  ∧ (∀ index mat p,
       materials w !! index = Some mat →
       editorPathOf mat = Some p →
       p ≠ "" →
       Path.join (assetsDirectory w) p = from →
       ∃ mat', materials (moveFile from to w).2 !! index = Some mat'
               ∧ editorPathOf mat' = Some to)
  ∧ (∀ index path, SetEditorPath index path ∈ effects w from to → path = to)
  ∧ (∀ fields md,
       readFails (faults w) = false →
       disk w !! from = Some (Document (Json.JObject fields)) →
       Json.get "metadata" fields = Some (Json.JObject md) →
       ∃ fields' md',
         List.filter isWriteJSON (effects w from to)
         = [WriteJSON from (Json.JObject fields')
              {| spaces := TAB; encoding := "utf-8" |}]
         ∧ Json.get "metadata" fields' = Some (Json.JObject md')
         ∧ Json.get "editorPath" md' = Some (Json.JString to)).
Proof.
  intros Habsent. pose proof (newEditorPath_absent _ _ Habsent) as Hnew.
  split_and!; [done | | |].
  - intros index mat p Hi Hp Hne Hjoin.
    assert (Hm : matchesFrom (assetsDirectory w) from mat = true)
      by (apply matchesFrom_true; eauto).
    eexists. split; [by apply moveFile_matched|].
    by rewrite (editorPathOf_assign _ _ _ Hp), Hnew.
  - intros index path Hin. apply effects_assignments in Hin. congruence.
  - intros fields md Hread Hdoc Hmd. eexists _, _.
    rewrite moveFile_writes, Hnew, (patched_object _ _ _ _ _ Hread Hdoc Hmd).
    split_and!; [done | apply JsonFacts.get_set_eq | apply JsonFacts.get_set_eq].
Qed.

(** A move out of the asset root, to [/tmp/new.material]. *)
Lemma moveFile_keeps_destination_without_root_witness :
  newEditorPath sampleRoot "/tmp/new.material" = "/tmp/new.material"
  ∧ (∃ mat', materials (moveFile sampleFrom "/tmp/new.material" sampleWorld).2 !! 0
             = Some mat'
             ∧ editorPathOf mat' = Some "/tmp/new.material")
  ∧ (∃ fields' md',
       List.filter isWriteJSON (effects sampleWorld sampleFrom "/tmp/new.material")
       = [WriteJSON sampleFrom (Json.JObject fields')
            {| spaces := TAB; encoding := "utf-8" |}]
       ∧ Json.get "metadata" fields' = Some (Json.JObject md')
       ∧ Json.get "editorPath" md' = Some (Json.JString "/tmp/new.material")).
Proof.
  destruct (moveFile_keeps_destination_without_root sampleWorld sampleFrom
              "/tmp/new.material" eq_refl) as (Hnew & Hrefs & _ & Hdoc).
  split_and!.
  - exact Hnew.
  - apply (Hrefs 0 (mkMaterial "wood" (Some "mats/old.material"))
             "mats/old.material"); [reflexivity | reflexivity | discriminate | reflexivity].
  - apply (Hdoc
             [("customType", Json.JString "BABYLON.PBRMaterial");
              ("metadata",
               Json.JObject [("editorPath", Json.JString "mats/old.material");
                             ("tags", Json.JArray [])]);
              ("alpha", Json.JNumber (S754_finite false 1 0))]
             [("editorPath", Json.JString "mats/old.material");
              ("tags", Json.JArray [])]);
      [reflexivity | vm_compute; reflexivity | reflexivity].
Defined.


(* ===================================================================== *)
(** ** Further properties of [moveFile] *)
(* ===================================================================== *)

Lemma belowRoot_stored (root path rest : string) :
  belowRoot root path rest →
  newEditorPath root path = rest ∧ Path.join root rest = path.
Proof.
  intros (Hroot & Hrest & Hpath & Hnorm). split.
  - rewrite Hpath. unfold newEditorPath. by rewrite JsStringFacts.replace_prefix.
  - rewrite <- JoinFacts.join_rest by done. by rewrite <- Hpath.
Qed.

Lemma relocate_cases (root from new : string) (mat : Material) :
  (matchesFrom root from mat = true
   ∧ relocate root from new mat = assignEditorPath mat new)
  ∨ (matchesFrom root from mat = false ∧ relocate root from new mat = mat).
Proof. unfold relocate. destruct (matchesFrom root from mat); [by left | by right]. Qed.

Lemma assignEditorPath_again (mat : Material) (p q : string) :
  assignEditorPath (assignEditorPath mat p) q = assignEditorPath mat q.
Proof. unfold assignEditorPath. destruct (metadata mat) eqn:E; cbn; by rewrite ?E. Qed.

Lemma moveFile_root (w : World) (from to : string) :
  assetsDirectory (moveFile from to w).2 = assetsDirectory w.
Proof. by rewrite moveFile_run. Qed.

(** Whatever the move, the scene keeps its materials: as many, in the same
    order, under the same names, with the same other metadata; a material
    without metadata gets none, and the [editorPath] of a material is either
    what it was or the new stored path. The asset root is not changed. *)
Theorem moveFile_keeps_the_scene (w : World) (from to : string) :
  length (materials (moveFile from to w).2) = length (materials w)
  ∧ assetsDirectory (moveFile from to w).2 = assetsDirectory w
  ∧ ∀ index mat,
      materials w !! index = Some mat →
      ∃ mat',
        materials (moveFile from to w).2 !! index = Some mat'
        ∧ name mat' = name mat
        ∧ otherMetadata <$> metadata mat' = otherMetadata <$> metadata mat
        ∧ (metadata mat = None → mat' = mat)
        ∧ (editorPathOf mat' = editorPathOf mat
           ∨ editorPathOf mat' = Some (newEditorPath (assetsDirectory w) to)).
Proof.
  split_and!.
  - by rewrite moveFile_materials, length_fmap.
  - apply moveFile_root.
  - intros index mat Hi. eexists. rewrite moveFile_lookup, Hi. split; [done|].
    destruct (relocate_cases (assetsDirectory w) from
                (newEditorPath (assetsDirectory w) to) mat) as [[Hm ->] | [_ ->]].
    + destruct (assignEditorPath_rest mat (newEditorPath (assetsDirectory w) to))
        as [Hname Hother].
      apply matchesFrom_true in Hm as (p & Hp & _).
      split_and!; try done.
      * intros Hnone. unfold assignEditorPath. by rewrite Hnone.
      * right. by eapply editorPathOf_assign.
    + split_and!; try done. by left.
Qed.

Lemma relocations_no_file_call (root from new : string) (mats : list Material)
  (k : nat) :
  List.filter isFileCall (relocations root from new k mats) = [].
Proof.
  revert k. induction mats as [|mat mats IH]; intros k; cbn; [done|].
  rewrite List.filter_app, IH. by destruct (matchesFrom root from mat).
Qed.

(** The calls of the file system a move makes are one [readJSON] and at
    most one [writeJSON] after it, both on the path [from] as it is given;
    no other path is opened, [to] no more than any. There is no [writeJSON]
    exactly when the read fails, the file is missing or no JSON, or the
    patch of the document throws. *)
Theorem moveFile_calls_only_on_from (w : World) (from to : string) :
  let calls := List.filter isFileCall (effects w from to) in
  (calls = [ReadJSON from]
   ∧ (readFails (faults w) = true
      ∨ disk w !! from = None
      ∨ disk w !! from = Some Unparseable
      ∨ ∃ json e,
          disk w !! from = Some (Document json)
          ∧ patchDocument json (newEditorPath (assetsDirectory w) to) = Throw e))
  ∨ (∃ json json',
       readFails (faults w) = false
       ∧ disk w !! from = Some (Document json)
       ∧ patchDocument json (newEditorPath (assetsDirectory w) to) = Normal json'
       ∧ calls = [ReadJSON from; WriteJSON from json' writeOptions]).
Proof.
  cbv zeta. rewrite effects_run, List.filter_app, relocations_no_file_call.
  unfold patched. cbn [app List.filter isFileCall].
  destruct (readFails (faults w)) eqn:Hread; [left; split; [done | by left]|].
  destruct (disk w !! from) as [[|json]|] eqn:Hdisk.
  - left. split; [done|]. by right; right; left.
  - destruct (patchDocument json _) as [json'|e] eqn:Hpatch.
    + right. by exists json, json'.
    + left. split; [done|]. right; right; right. by exists json, e.
  - left. split; [done|]. by right; left.
Qed.

Lemma matchesFrom_stays (root from new other : string) (mat : Material) :
  matchesFrom root from mat = true →
  new ≠ "" → Path.join root new = other →
  matchesFrom root other (assignEditorPath mat new) = true.
Proof.
  intros (p & Hp & _)%matchesFrom_true Hnew Hjoin.
  apply matchesFrom_true. exists new. split_and!; try done.
  by eapply editorPathOf_assign.
Qed.

(** A chain of moves amounts to the direct move: when no reference resolves
    to the intermediate path [b] beforehand and [b] is a normalized path
    below the asset root, moving [a] to [b] and then [b] to [c] leaves the
    materials as moving [a] to [c] does. *)
Theorem moveFile_chain (w : World) (a b c restB : string) :
  belowRoot (assetsDirectory w) b restB →
  (∀ index mat p,
     materials w !! index = Some mat → editorPathOf mat = Some p →
     p = "" ∨ Path.join (assetsDirectory w) p ≠ b) →
  materials (moveFile b c (moveFile a b w).2).2 = materials (moveFile a c w).2.
Proof.
  intros Hbelow Hfree. destruct (belowRoot_stored _ _ _ Hbelow) as [HnewB HjoinB].
  destruct Hbelow as (_ & HrestB & _ & _).
  rewrite (moveFile_materials (moveFile a b w).2), moveFile_root.
  rewrite !moveFile_materials, HnewB, <- list_fmap_compose.
  apply list_fmap_ext. intros index mat Hi. cbn.
  assert (Hb : matchesFrom (assetsDirectory w) b mat = false).
  { apply matchesFrom_false. destruct (editorPathOf mat) as [p|] eqn:Hp; [|by left].
    destruct (Hfree index mat p Hi Hp) as [-> | Hne]; [by right; left|].
    right; right. by exists p. }
  set (newC := newEditorPath (assetsDirectory w) c).
  destruct (relocate_cases (assetsDirectory w) a restB mat) as [[Hm ->] | [Hm ->]].
  - unfold relocate at 1.
    rewrite (matchesFrom_stays _ a restB b mat Hm HrestB HjoinB).
    rewrite assignEditorPath_again. unfold relocate. by rewrite Hm.
  - unfold relocate. by rewrite Hb, Hm.
Qed.

(** The sample move, then a move of the moved file up to the asset root. *)
Lemma moveFile_chain_witness :
  materials
    (moveFile sampleTo "/proj/assets/wood.material"
       (moveFile sampleFrom sampleTo sampleWorld).2).2
  = materials (moveFile sampleFrom "/proj/assets/wood.material" sampleWorld).2.
Proof.
  apply (moveFile_chain sampleWorld sampleFrom sampleTo
           "/proj/assets/wood.material" "mats/new.material").
  - split_and!; [discriminate | discriminate | reflexivity | reflexivity].
  - intros index mat p Hi Hp.
    do 6 (destruct index as [|index];
          [cbn in Hi; injection Hi as <-; vm_compute in Hp;
           first [discriminate Hp
                 | injection Hp as <-;
                   first [by left | right; vm_compute; discriminate]] |]).
    cbn in Hi. discriminate Hi.
Defined.

(** There and back: when [from] and [to] are normalized paths below the
    asset root, moving [from] to [to] and then [to] back to [from] leaves
    every reference that has a non-empty [editorPath] not resolving to [to]
    beforehand with an [editorPath] that resolves to the same path as
    before, and with the same name and other metadata. *)
Theorem moveFile_there_and_back
  (w : World) (from to restF restT : string) (index : nat) (mat : Material)
  (p : string) :
  belowRoot (assetsDirectory w) from restF →
  belowRoot (assetsDirectory w) to restT →
  materials w !! index = Some mat →
  editorPathOf mat = Some p →
  p ≠ "" →
  Path.join (assetsDirectory w) p ≠ to →
  ∃ mat' p',
    materials (moveFile to from (moveFile from to w).2).2 !! index = Some mat'
    ∧ editorPathOf mat' = Some p'
    ∧ Path.join (assetsDirectory w) p' = Path.join (assetsDirectory w) p
    ∧ name mat' = name mat
    ∧ otherMetadata <$> metadata mat' = otherMetadata <$> metadata mat.
Proof.
  intros HbelowF HbelowT Hi Hp Hne Hto.
  destruct (belowRoot_stored _ _ _ HbelowF) as [HnewF HjoinF].
  destruct (belowRoot_stored _ _ _ HbelowT) as [HnewT HjoinT].
  destruct HbelowT as (_ & HrestT & _ & _).
  rewrite moveFile_lookup, moveFile_root, moveFile_lookup, Hi, HnewF, HnewT. cbn.
  destruct (relocate_cases (assetsDirectory w) from restT mat) as [[Hm ->] | [Hm ->]].
  - unfold relocate.
    rewrite (matchesFrom_stays _ from restT to mat Hm HrestT HjoinT).
    rewrite assignEditorPath_again.
    destruct (assignEditorPath_rest mat restF) as [Hname Hother].
    eexists _, restF. split_and!; try done.
    + by eapply editorPathOf_assign.
    + apply matchesFrom_true in Hm as (q & Hq & _ & Hjoin).
      rewrite HjoinF. congruence.
  - assert (Ht : matchesFrom (assetsDirectory w) to mat = false).
    { apply matchesFrom_false. right; right. by exists p. }
    unfold relocate. rewrite Ht. by eexists _, p.
Qed.

(** The sample move and its reverse, seen from the reference whose stored
    path was not normalized. *)
Lemma moveFile_there_and_back_witness :
  ∃ mat' p',
    materials (moveFile sampleTo sampleFrom
                 (moveFile sampleFrom sampleTo sampleWorld).2).2 !! 2 = Some mat'
    ∧ editorPathOf mat' = Some p'
    ∧ Path.join sampleRoot p' = Path.join sampleRoot "mats/./old.material"
    ∧ name mat' = "wood-copy"
    ∧ otherMetadata <$> metadata mat' = Some [("tags", Json.JArray [])].
Proof.
  apply (moveFile_there_and_back sampleWorld sampleFrom sampleTo
           "mats/old.material" "mats/new.material" 2
           (mkMaterial "wood-copy" (Some "mats/./old.material"))
           "mats/./old.material").
  - split_and!; [discriminate | discriminate | reflexivity | reflexivity].
  - split_and!; [discriminate | discriminate | reflexivity | reflexivity].
  - reflexivity.
  - reflexivity.
  - discriminate.
  - vm_compute. discriminate.
Defined.

(** After a move that meets no failure, memory and disk agree: when [to] is
    any path and the document at [from] is an object whose [metadata] is an
    object, the document read back from [from] carries in
    [metadata.editorPath] the very path that every matching reference
    carries in memory. *)
Theorem moveFile_memory_and_disk_agree
  (w : World) (from to : string) (fields md : list (string * Json.value))
  (index : nat) (mat : Material) (p : string) :
  faults w = noFaults →
  disk w !! from = Some (Document (Json.JObject fields)) →
  Json.get "metadata" fields = Some (Json.JObject md) →
  materials w !! index = Some mat →
  editorPathOf mat = Some p →
  p ≠ "" →
  Path.join (assetsDirectory w) p = from →
  ∃ mat' stored fields' md',
    materials (moveFile from to w).2 !! index = Some mat'
    ∧ editorPathOf mat' = Some stored
    ∧ disk (moveFile from to w).2 !! from = Some (Document (Json.JObject fields'))
    ∧ Json.get "metadata" fields' = Some (Json.JObject md')
    ∧ Json.get "editorPath" md' = Some (Json.JString stored).
Proof.
  intros Hfaults Hdoc Hmd Hi Hp Hne Hjoin.
  assert (Hm : matchesFrom (assetsDirectory w) from mat = true)
    by (apply matchesFrom_true; eauto).
  assert (Hread : readFails (faults w) = false) by (by rewrite Hfaults).
  eexists _, _, _, _. split; [by apply moveFile_matched|].
  split; [by eapply editorPathOf_assign|].
  rewrite moveFile_disk, (patched_object _ _ _ _ _ Hread Hdoc Hmd), Hfaults.
  cbn [writeFails noFaults]. rewrite lookup_insert_eq.
  cbn [Json.reparse]. split; [reflexivity|].
  rewrite ReparseFacts.get_reparse, JsonFacts.get_set_eq. cbn. split; [reflexivity|].
  by rewrite ReparseFacts.get_reparse, JsonFacts.get_set_eq.
Qed.

(** The sample move. *)
Lemma moveFile_memory_and_disk_agree_witness :
  ∃ mat' stored fields' md',
    materials (moveFile sampleFrom sampleTo sampleWorld).2 !! 0 = Some mat'
    ∧ editorPathOf mat' = Some stored
    ∧ disk (moveFile sampleFrom sampleTo sampleWorld).2 !! sampleFrom
      = Some (Document (Json.JObject fields'))
    ∧ Json.get "metadata" fields' = Some (Json.JObject md')
    ∧ Json.get "editorPath" md' = Some (Json.JString stored).
Proof.
  apply (moveFile_memory_and_disk_agree sampleWorld sampleFrom sampleTo
           [("customType", Json.JString "BABYLON.PBRMaterial");
            ("metadata",
             Json.JObject [("editorPath", Json.JString "mats/old.material");
                           ("tags", Json.JArray [])]);
            ("alpha", Json.JNumber (S754_finite false 1 0))]
           [("editorPath", Json.JString "mats/old.material");
            ("tags", Json.JArray [])]
           0 (mkMaterial "wood" (Some "mats/old.material")) "mats/old.material");
    [reflexivity | vm_compute; reflexivity | reflexivity | reflexivity
    | reflexivity | discriminate | reflexivity].
Defined.

(** The precondition of the chain is needed: a reference that resolves to
    the intermediate path beforehand is carried along by the second move. *)
Example moveFile_chain_with_reference_at_destination :
  editorPathOf
    <$> materials (moveFile sampleTo "/proj/assets/wood.material"
                     (moveFile sampleFrom sampleTo crowdedWorld).2).2
  = [Some "wood.material"; Some "wood.material"; Some ""]
  ∧ editorPathOf
      <$> materials (moveFile sampleFrom "/proj/assets/wood.material" crowdedWorld).2
    = [Some "wood.material"; Some "mats/new.material"; Some ""].
Proof. split; vm_compute; reflexivity. Qed.

(* ===================================================================== *)
(** ** More about [normalize] and [join] *)
(* ===================================================================== *)

Module NormalFormFacts.
Import Path PathFacts NormalizeFacts JoinFacts.

Lemma endsWithSlash_slashFree (s : string) :
  s ≠ "" → slashFree s = true → endsWithSlash s = false.
Proof.
  induction s as [|c s IH]; [done|]. intros _. cbn.
  destruct (isPosixPathSeparator c) eqn:E; [done|]. cbn. intros Hfree.
  destruct s as [|c' s]; [done|]. by apply IH.
Qed.

Lemma append_nonempty_l (a b : string) : a ≠ "" → a +:+ b ≠ "".
Proof. destruct a; [done|]. by rewrite append_cons. Qed.

Lemma append_empty_r (s : string) : s +:+ "" = s.
Proof. induction s as [|c s IH]; [done|]. by rewrite append_cons, IH. Qed.

Lemma endsWithSlash_slash (s : string) :
  s ≠ "" → endsWithSlash (String "/" s) = endsWithSlash s.
Proof. by destruct s. Qed.

Lemma endsWithSlash_concat (x : string) (l : list string) :
  Forall (λ seg, seg ≠ "" ∧ slashFree seg = true) (x :: l) →
  endsWithSlash (String.concat "/" (x :: l)) = false.
Proof.
  revert x. induction l as [|y l IH]; intros x Hxl.
  - apply Forall_cons in Hxl as [[Hx Hfree] _]. by apply endsWithSlash_slashFree.
  - apply Forall_cons in Hxl as [_ Hyl].
    pose proof Hyl as Hy. apply Forall_cons in Hy as [[Hy _] _].
    rewrite concat_cons, endsWithSlash_append by done.
    rewrite endsWithSlash_slash by (by apply concat_nonempty). by apply IH.
Qed.

Lemma split_trailing (s : string) : split (s +:+ "/") = split s ++ [""].
Proof. apply (split_append s ""). Qed.

Lemma fold_trailing (allow : bool) (segs st : list string) :
  fold_left (step allow) (segs ++ [""]) st = fold_left (step allow) segs st.
Proof. by rewrite fold_left_app. Qed.

(** The text [finish] produces from a well-formed stack normalizes to
    itself. *)
Lemma normalize_finish_fixed (abs trail : bool) (st : list string) :
  wfStack (negb abs) st → normalize (finish abs trail st) = finish abs trail st.
Proof.
  intros Hwf. pose proof (replay _ _ Hwf) as Hreplay.
  pose proof (wf_segments _ _ Hwf) as Hsegs.
  destruct (rev st) as [|x l] eqn:Hrev.
  - apply (f_equal (@rev string)) in Hrev. rewrite rev_involutive in Hrev.
    subst st. by destruct abs, trail.
  - assert (Hxl : Forall (λ seg, seg ≠ "" ∧ slashFree seg = true) (x :: l))
      by (rewrite <- Hrev; by apply Forall_rev).
    pose proof Hxl as Hx. apply Forall_cons in Hx as [[Hx Hxfree] _].
    assert (Hfree : Forall (λ seg, slashFree seg = true) (x :: l))
      by (eapply Forall_impl; [exact Hxl | by intros ? [_ ?]]).
    pose proof (concat_nonempty x l Hx) as Hbody.
    assert (Hfinish : finish abs trail st
                      = (if abs then "/" else "")
                        +:+ String.concat "/" (x :: l)
                        +:+ (if trail then "/" else "")).
    { unfold finish. rewrite Hrev. apply String.eqb_neq in Hbody. rewrite Hbody.
      destruct abs, trail; try done; by rewrite append_empty_r. }
    set (body := String.concat "/" (x :: l)) in *.
    assert (Hstack : ∀ allow, allow = negb abs →
               fold_left (step allow) (x :: l) [] = st)
      by (by intros ? ->).
    rewrite Hfinish at 1. rewrite normalize_nonempty.
    2: { destruct abs; [by apply append_nonempty_l|].
         change ("" +:+ ?s) with s. by apply append_nonempty_l. }
    assert (Hstart : startsWithSlash ((if abs then "/" else "") +:+ body
                                      +:+ (if trail then "/" else "")) = abs).
    { destruct abs; [done|]. change ("" +:+ ?s) with s.
      rewrite startsWithSlash_append by done.
      by apply startsWithSlash_concat. }
    assert (Hend : endsWithSlash ((if abs then "/" else "") +:+ body
                                  +:+ (if trail then "/" else "")) = trail).
    { destruct trail.
      - rewrite <- append_assoc. by rewrite endsWithSlash_append.
      - rewrite append_empty_r. destruct abs.
        + change ("/" +:+ body) with (String "/" body).
          rewrite endsWithSlash_slash by done. by apply endsWithSlash_concat.
        + by apply endsWithSlash_concat. }
    rewrite Hstart, Hend. f_equal. unfold normalizeSegments.
    assert (Hsplit : split (body +:+ (if trail then "/" else ""))
                     = (x :: l) ++ (if trail then [""] else [])).
    { destruct trail.
      - rewrite split_trailing. unfold body. by rewrite split_concat.
      - rewrite append_empty_r, app_nil_r. unfold body. by rewrite split_concat. }
    destruct abs.
    + change ("/" +:+ body +:+ (if trail then "/" else ""))
        with (String "/" (body +:+ (if trail then "/" else ""))).
      rewrite split_slash, fold_empty_segment, Hsplit, fold_left_app, Hstack by done.
      by destruct trail.
    + change ("" +:+ ?s) with s.
      rewrite Hsplit, fold_left_app, Hstack by done. by destruct trail.
Qed.

(** [normalize] is idempotent. *)
Lemma normalize_idem (path : string) : normalize (normalize path) = normalize path.
Proof.
  destruct (decide (path = "")) as [-> | Hne]; [done|].
  rewrite (normalize_nonempty path Hne).
  apply normalize_finish_fixed, normalizeSegments_wf.
Qed.

Lemma join_normalized (a b : string) : normalize (join a b) = join a b.
Proof.
  unfold join, joinAll. destruct (filter _ _); [done|]. apply normalize_idem.
Qed.
End NormalFormFacts.

(* ===================================================================== *)
(** ** Checks of the files view on the sample project *)
(* ===================================================================== *)

Section FilesViewChecks.
Import AssetsBrowserFiles.

Example sample_root_listing :
  (λ item, (title item, type item, relativePath item))
  <$> items (state (session [(sampleFs, ShowDirectory "/proj/assets")] initial))
  = [("mats", directory, "mats"); ("scene.babylon", file, "scene.babylon")].
Proof. vm_compute. reflexivity. Qed.

Example sample_folder_listing :
  (λ item, (title item, type item, relativePath item))
  <$> items (state (session [(sampleFs, ShowDirectory "/proj/assets");
                             (sampleFs, DoubleClick 0)] initial))
  = [("old.material", file, "mats/old.material");
     ("stone.material", file, "mats/stone.material")].
Proof. vm_compute. reflexivity. Qed.

Example sample_breadcrumbs :
  _getBreadcrumbsItems
    (session [(sampleFs, ShowDirectory "/proj/assets");
              (sampleFs, DoubleClick 0)] initial)
  = [{| text := "assets"; onClick := "/proj/assets" |};
     {| text := "mats"; onClick := "/proj/assets/mats" |}].
Proof. vm_compute. reflexivity. Qed.

(** After a click on the root breadcrumb the view lists the root, but a
    refresh lists the folder opened last again: [setDirectory] does not
    record where it is. *)
Example sample_refresh_after_breadcrumb :
  title <$> items (state (session [(sampleFs, ShowDirectory "/proj/assets");
                                   (sampleFs, DoubleClick 0);
                                   (sampleFs, ClickBreadcrumb 0)] initial))
  = ["mats"; "scene.babylon"]
  ∧ title <$> items (state (session [(sampleFs, ShowDirectory "/proj/assets");
                                     (sampleFs, DoubleClick 0);
                                     (sampleFs, ClickBreadcrumb 0);
                                     (sampleFs, Refresh)] initial))
    = ["old.material"; "stone.material"].
Proof. split; vm_compute; reflexivity. Qed.

Example stringSplit_examples :
  JsText.stringSplit "/a/b/a/c" "/a" = [""; "/b"; "/c"]
  ∧ JsText.stringSplit "aXYbXYXYc" "XY" = ["a"; "b"; ""; "c"]
  ∧ JsText.stringSplit "abc" "" = ["a"; "b"; "c"]
  ∧ JsText.stringSplit "" "x" = [""]
  ∧ JsText.stringSplit "" "" = [].
Proof. repeat split. Qed.

Example basename_examples :
  PathName.basename "/proj/assets" = "assets"
  ∧ PathName.basename "/a/b//" = "b"
  ∧ PathName.basename "/" = ""
  ∧ PathName.basename "" = "".
Proof. repeat split. Qed.
End FilesViewChecks.

(* ===================================================================== *)
(** ** The files view: the run of [setDirectory] *)
(* ===================================================================== *)

Section FilesView.
Import AssetsBrowserFiles.

Lemma setDirectory_run (fs : FileSystem) (directoryPath : string) (this : Component) :
  setDirectory fs directoryPath this
  = match readdir fs directoryPath with
    | Throw e => (Throw e, prepared this directoryPath)
    | Normal files =>
        match buildItems fs (assetsDirectoryOf (prepared this directoryPath))
                directoryPath (List.filter shown files) with
        | Throw e => (Throw e, prepared this directoryPath)
        | Normal elements => (Normal (), listed this directoryPath elements)
        end
    end.
Proof.
  unfold setDirectory, listed, prepared, mbind, C_bind, mret, C_ret, getThis,
    liftC, setState, assignAssetsDirectory.
  destruct (JsText.falsy (_assetsDirectory this)); cbn;
    destruct (readdir fs directoryPath) as [files|e]; cbn; try done;
    destruct (buildItems _ _ _ _) as [elements|e]; cbn; try done;
    destruct (refreshedPathStack _ _); done.
Qed.

Lemma buildItems_Normal (fs : FileSystem) (root directoryPath : string)
  (files : list string) (elements : list Item) :
  buildItems fs root directoryPath files = Normal elements →
  title <$> elements = files ∧ Forall (itemOf fs root directoryPath) elements.
Proof.
  revert elements. induction files as [|f files IH]; intros elements; cbn.
  - by intros [= <-].
  - destruct (stat fs (Path.join directoryPath f)) as [isDirectory|e] eqn:Hstat;
      [|done].
    destruct (buildItems fs root directoryPath files) as [rest|e]; [|done].
    intros [= <-]. destruct (IH rest eq_refl) as [Htitles Hitems].
    split; [cbn; by rewrite Htitles|].
    constructor; [|done]. by exists isDirectory.
Qed.

Lemma buildItems_Throw (fs : FileSystem) (root directoryPath : string)
  (files : list string) (e : Error) :
  buildItems fs root directoryPath files = Throw e →
  ∃ f, f ∈ files ∧ stat fs (Path.join directoryPath f) = Throw e.
Proof.
  induction files as [|f files IH]; cbn; [done|].
  destruct (stat fs (Path.join directoryPath f)) as [isDirectory|e'] eqn:Hstat.
  - destruct (buildItems fs root directoryPath files) as [rest|e'']; [done|].
    intros [= ->]. destruct (IH eq_refl) as (f' & Hin & Hf').
    exists f'. split; [by right | done].
  - intros [= ->]. exists f. split; [by left | done].
Qed.

Lemma buildItems_total (fs : FileSystem) (root directoryPath : string)
  (files : list string) :
  (∀ f, f ∈ files → ∃ isDirectory,
        stat fs (Path.join directoryPath f) = Normal isDirectory) →
  ∃ elements, buildItems fs root directoryPath files = Normal elements.
Proof.
  intros Hstat.
  destruct (buildItems fs root directoryPath files) as [elements|e] eqn:Hbuild;
    [by exists elements|].
  apply buildItems_Throw in Hbuild as (f & Hin & Hf).
  destruct (Hstat f Hin) as [d Hd]. congruence.
Qed.
End FilesView.

Section FilesViewListing.
Import AssetsBrowserFiles.

Lemma shown_spec (f : string) : shown f = true ↔ String.prefix "." f = false.
Proof.
  unfold shown. rewrite negb_true_iff, bool_decide_eq_false.
  destruct f as [|c f]; [done|]. cbn [JsText.indexOf].
  destruct (String.prefix "." (String c f)); [by split|].
  split; [done|]. intros _. by destruct (JsText.indexOf f ".").
Qed.

(** A listing that can be made is made in full: when [readdir] answers and
    [stat] answers for every entry that does not start with a dot,
    [setDirectory] returns, and the view shows exactly those entries, in the
    order of [readdir], each with the path [join(directoryPath, title)], the
    type [stat] gives, and a closure that opens that very entry. *)
Theorem setDirectory_lists_the_shown_entries
  (fs : FileSystem) (directoryPath : string) (this : Component)
  (files : list string) :
  readdir fs directoryPath = Normal files →
  (∀ f, f ∈ files → String.prefix "." f = false →
        ∃ isDirectory, stat fs (Path.join directoryPath f) = Normal isDirectory) →
  (setDirectory fs directoryPath this).1 = Normal ()
  ∧ title <$> items (state (setDirectory fs directoryPath this).2)
    = List.filter (λ f, negb (String.prefix "." f)) files
  ∧ Forall (itemOf fs (assetsDirectoryOf (setDirectory fs directoryPath this).2)
              directoryPath)
      (items (state (setDirectory fs directoryPath this).2)).
Proof.
  intros Hreaddir Hstat.
  assert (Hfilter : List.filter shown files
                    = List.filter (λ f, negb (String.prefix "." f)) files).
  { apply List.filter_ext. intros f. destruct (shown f) eqn:E.
    - apply shown_spec in E. by rewrite E.
    - destruct (String.prefix "." f) eqn:E'; [done|].
      apply shown_spec in E'. congruence. }
  destruct (buildItems_total fs (assetsDirectoryOf (prepared this directoryPath))
              directoryPath (List.filter shown files)) as [elements Hbuild].
  { intros f [Hin Hshown%shown_spec]%list_elem_of_In%List.filter_In.
    apply Hstat; [by apply list_elem_of_In | done]. }
  rewrite setDirectory_run, Hreaddir, Hbuild.
  destruct (buildItems_Normal _ _ _ _ _ Hbuild) as [Htitles Hitems].
  split_and!; [done | by rewrite <- Hfilter | done].
Qed.

(** The first listing of the sample project. *)
Lemma setDirectory_lists_the_shown_entries_witness :
  (setDirectory sampleFs "/proj/assets" initial).1 = Normal ()
  ∧ title <$> items (state (setDirectory sampleFs "/proj/assets" initial).2)
    = ["mats"; "scene.babylon"]
  ∧ Forall (itemOf sampleFs "/proj/assets" "/proj/assets")
      (items (state (setDirectory sampleFs "/proj/assets" initial).2)).
Proof.
  apply (setDirectory_lists_the_shown_entries sampleFs "/proj/assets" initial
           [".git"; "mats"; "scene.babylon"; ".DS_Store"]); [reflexivity|].
  intros f Hin Hshown.
  repeat (apply elem_of_cons in Hin as [-> | Hin];
          [first [discriminate Hshown | by eexists] |]).
  by apply elem_of_nil in Hin.
Defined.

(** A listing that fails changes nothing of what is shown: when
    [setDirectory] throws, the error is that of [readdir] or of the [stat]
    of an entry that would be shown, the items are the ones of before, and
    if the asset root was set already the whole component is as before. *)
Theorem setDirectory_fails_without_a_trace
  (fs : FileSystem) (directoryPath : string) (this : Component) (e : Error) :
  (setDirectory fs directoryPath this).1 = Throw e →
  (readdir fs directoryPath = Throw e
   ∨ ∃ files f, readdir fs directoryPath = Normal files
                ∧ f ∈ files ∧ String.prefix "." f = false
                ∧ stat fs (Path.join directoryPath f) = Throw e)
  ∧ items (state (setDirectory fs directoryPath this).2) = items (state this)
  ∧ (JsText.falsy (_assetsDirectory this) = false →
     (setDirectory fs directoryPath this).2 = this).
Proof.
  rewrite setDirectory_run.
  assert (Hitems : items (state (prepared this directoryPath)) = items (state this))
    by (unfold prepared; by destruct (JsText.falsy _)).
  assert (Hset : JsText.falsy (_assetsDirectory this) = false →
                 prepared this directoryPath = this)
    by (unfold prepared; by intros ->).
  destruct (readdir fs directoryPath) as [files|e'] eqn:Hreaddir.
  - destruct (buildItems _ _ _ _) as [elements|e'] eqn:Hbuild; [done|].
    intros [= ->]. split_and!; try done. right.
    apply buildItems_Throw in Hbuild as (f & Hin & Hf).
    apply list_elem_of_In, List.filter_In in Hin as [Hin Hshown%shown_spec].
    exists files, f. split_and!; try done. by apply list_elem_of_In.
  - intros [= ->]. split_and!; try done. by left.
Qed.

(** A directory that cannot be read, asked for after the root was listed. *)
Lemma setDirectory_fails_without_a_trace_witness :
  (readdir sampleFs "/proj/missing" = Throw SystemError
   ∨ ∃ files f, readdir sampleFs "/proj/missing" = Normal files
                ∧ f ∈ files ∧ String.prefix "." f = false
                ∧ stat sampleFs (Path.join "/proj/missing" f) = Throw SystemError)
  ∧ items (state (setDirectory sampleFs "/proj/missing"
                    (setDirectory sampleFs "/proj/assets" initial).2).2)
    = items (state (setDirectory sampleFs "/proj/assets" initial).2)
  ∧ (JsText.falsy (_assetsDirectory (setDirectory sampleFs "/proj/assets" initial).2)
     = false →
     (setDirectory sampleFs "/proj/missing"
        (setDirectory sampleFs "/proj/assets" initial).2).2
     = (setDirectory sampleFs "/proj/assets" initial).2).
Proof.
  apply (setDirectory_fails_without_a_trace sampleFs "/proj/missing"
           (setDirectory sampleFs "/proj/assets" initial).2 SystemError).
  reflexivity.
Defined.
End FilesViewListing.

(* ===================================================================== *)
(** ** The files view: the path stack *)
(* ===================================================================== *)

Module SplitFacts.
Import JsText.

Lemma splitFrom_nonempty (sep : string) (k : nat) (s : string) :
  splitFrom sep k s ≠ [].
Proof.
  revert k. induction s as [|c s IH]; intros k; cbn [splitFrom]; [done|].
  destruct k; [|apply IH].
  destruct (String.prefix sep (String c s)); [done|].
  by destruct (splitFrom sep 0 s).
Qed.

(** Passing over the characters of a found separator. *)
Lemma splitFrom_skip (sep a t : string) :
  splitFrom sep (String.length a) (a +:+ t) = splitFrom sep 0 t.
Proof.
  induction a as [|c a IH]; [done|].
  rewrite PathFacts.append_cons. cbn. exact IH.
Qed.

(** A text in which the separator does not occur is one piece. *)
Lemma splitFrom_absent (sep t : string) :
  JsString.includes t sep = false → splitFrom sep 0 t = [t].
Proof.
  induction t as [|c t IH]; [done|].
  rewrite JsStringFacts.includes_unfold. cbn [splitFrom].
  destruct (String.prefix sep (String c t)); [done|].
  intros Ht. by rewrite IH.
Qed.

(** A text that begins with the separator: an empty piece, then the pieces
    of what follows. *)
Lemma split_leading (sep t : string) :
  sep ≠ "" → stringSplit (sep +:+ t) sep = "" :: stringSplit t sep.
Proof.
  intros Hsep. unfold stringSplit. apply String.eqb_neq in Hsep as Hsep'.
  rewrite Hsep'. destruct sep as [|c sep]; [done|].
  rewrite PathFacts.append_cons. cbn [splitFrom].
  rewrite <- PathFacts.append_cons, JsStringFacts.prefix_append.
  replace (String.length (String c sep) - 1) with (String.length sep)
    by (cbn [String.length]; lia).
  by rewrite splitFrom_skip.
Qed.

Lemma split_absent (sep t : string) :
  sep ≠ "" → JsString.includes t sep = false → stringSplit t sep = [t].
Proof.
  intros Hsep Ht. unfold stringSplit. apply String.eqb_neq in Hsep. rewrite Hsep.
  by apply splitFrom_absent.
Qed.

(** Cutting at ["/"] is what [Path.split] does. *)
Lemma split_at_slash (t : string) : stringSplit t "/" = Path.split t.
Proof.
  unfold stringSplit. cbn [String.eqb]. induction t as [|c t IH]; [done|].
  cbn [splitFrom Path.split String.length Nat.sub].
  assert (Hprefix : String.prefix "/" (String c t) = Path.isPosixPathSeparator c).
  { change (String.prefix "/" (String c t))
      with (if Ascii.ascii_dec "/" c then String.prefix "" t else false).
    unfold Path.isPosixPathSeparator, Path.CHAR_FORWARD_SLASH.
    destruct (Ascii.ascii_dec "/" c) as [<-|Hne].
    - rewrite Ascii.eqb_refl. by destruct t.
    - symmetry. apply Ascii.eqb_neq. congruence. }
  rewrite Hprefix, IH. by destruct (Path.isPosixPathSeparator c).
Qed.
End SplitFacts.

Section FilesViewPathStack.
Import AssetsBrowserFiles.

Lemma refreshedPathStack_below (root t : string) :
  root ≠ "" → JsString.includes t root = false →
  refreshedPathStack root (root +:+ t)
  = if String.eqb t "" then None
    else Some (root :: List.filter (λ d, negb (String.eqb d "")) (Path.split t)).
Proof.
  intros Hroot Ht. unfold refreshedPathStack.
  rewrite SplitFacts.split_leading, SplitFacts.split_absent by done.
  change (["" ; t] !! 1) with (Some t). cbv beta iota.
  by rewrite SplitFacts.split_at_slash.
Qed.

Lemma refreshedPathStack_outside (root directoryPath : string) :
  root ≠ "" → JsString.includes directoryPath root = false →
  refreshedPathStack root directoryPath = None.
Proof.
  intros Hroot Ht. unfold refreshedPathStack.
  by rewrite SplitFacts.split_absent.
Qed.

Lemma assetsDirectoryOf_set (this : Component) (root : string) :
  _assetsDirectory this = Some root → assetsDirectoryOf this = root.
Proof. unfold assetsDirectoryOf. by intros ->. Qed.

Lemma prepared_set (this : Component) (directoryPath root : string) :
  _assetsDirectory this = Some root → root ≠ "" →
  prepared this directoryPath = this.
Proof.
  intros Hthis Hroot. unfold prepared. rewrite Hthis. cbn.
  apply String.eqb_neq in Hroot. by rewrite Hroot.
Qed.

(** Once the asset root is set, a listing that succeeds refreshes the path
    stack from the path alone: for a directory written as the root followed
    by a text [t] in which the root does not occur again, the stack becomes
    the root followed by the non-empty pieces of [t]; but for the root
    itself ([t] empty) the stack is left as it is. The listing never
    touches [currentDirectory], nor does it notify the container. *)
Theorem setDirectory_refreshes_the_path_stack
  (fs : FileSystem) (this : Component) (root t : string) :
  _assetsDirectory this = Some root →
  root ≠ "" →
  JsString.includes t root = false →
  (setDirectory fs (root +:+ t) this).1 = Normal () →
  pathStack (state (setDirectory fs (root +:+ t) this).2)
  = (if String.eqb t "" then pathStack (state this)
     else root :: List.filter (λ d, negb (String.eqb d "")) (Path.split t))
  ∧ currentDirectory (state (setDirectory fs (root +:+ t) this).2)
    = currentDirectory (state this)
  ∧ directorySelected (setDirectory fs (root +:+ t) this).2
    = directorySelected this
  ∧ _assetsDirectory (setDirectory fs (root +:+ t) this).2 = Some root.
Proof.
  intros Hthis Hroot Ht. rewrite setDirectory_run.
  destruct (readdir fs (root +:+ t)) as [files|e]; [|done].
  destruct (buildItems _ _ _ _) as [elements|e]; [|done]. intros _.
  unfold listed. rewrite (prepared_set _ _ _ Hthis Hroot).
  rewrite (assetsDirectoryOf_set _ _ Hthis).
  rewrite (refreshedPathStack_below _ _ Hroot Ht).
  by destruct (String.eqb t "").
Qed.

(** The folder [mats] of the sample project, asked for by its path. *)
Lemma setDirectory_refreshes_the_path_stack_witness :
  pathStack (state (setDirectory sampleFs ("/proj/assets" +:+ "/mats")
                      (setDirectory sampleFs "/proj/assets" initial).2).2)
  = ["/proj/assets"; "mats"]
  ∧ currentDirectory (state (setDirectory sampleFs ("/proj/assets" +:+ "/mats")
                               (setDirectory sampleFs "/proj/assets" initial).2).2)
    = "/proj/assets"
  ∧ directorySelected (setDirectory sampleFs ("/proj/assets" +:+ "/mats")
                         (setDirectory sampleFs "/proj/assets" initial).2).2
    = []
  ∧ _assetsDirectory (setDirectory sampleFs ("/proj/assets" +:+ "/mats")
                        (setDirectory sampleFs "/proj/assets" initial).2).2
    = Some "/proj/assets".
Proof.
  apply (setDirectory_refreshes_the_path_stack sampleFs
           (setDirectory sampleFs "/proj/assets" initial).2
           "/proj/assets" "/mats");
    [reflexivity | discriminate | reflexivity | reflexivity].
Defined.

(** The breadcrumbs go wrong when the root occurs again in the path: only
    what stands between its first two occurrences is kept. *)
Example refreshedPathStack_root_twice :
  refreshedPathStack "/a" "/a/b/a/c" = Some ["/a"; "b"].
Proof. reflexivity. Qed.
End FilesViewPathStack.

(* ===================================================================== *)
(** ** The files view: sessions *)
(* ===================================================================== *)

Section FilesViewSessions.
Import AssetsBrowserFiles.

Lemma setDirectory_cases (fs : FileSystem) (directoryPath : string) (this : Component) :
  (∃ e, setDirectory fs directoryPath this = (Throw e, prepared this directoryPath))
  ∨ (∃ files elements,
       readdir fs directoryPath = Normal files
       ∧ buildItems fs (assetsDirectoryOf (prepared this directoryPath))
           directoryPath (List.filter shown files) = Normal elements
       ∧ setDirectory fs directoryPath this
         = (Normal (), listed this directoryPath elements)).
Proof.
  rewrite setDirectory_run.
  destruct (readdir fs directoryPath) as [files|e]; [|left; by exists e].
  destruct (buildItems _ _ _ _) as [elements|e] eqn:Hbuild; [|left; by exists e].
  right. by exists files, elements.
Qed.

Lemma prepared_root (this : Component) (directoryPath root : string) :
  _assetsDirectory this = Some root → root ≠ "" →
  _assetsDirectory (prepared this directoryPath) = Some root.
Proof. intros Hthis Hroot. by rewrite (prepared_set _ _ _ Hthis Hroot). Qed.

Lemma setDirectory_root (fs : FileSystem) (directoryPath : string)
  (this : Component) (root : string) :
  _assetsDirectory this = Some root → root ≠ "" →
  _assetsDirectory (setDirectory fs directoryPath this).2 = Some root.
Proof.
  intros Hthis Hroot.
  destruct (setDirectory_cases fs directoryPath this)
    as [[e ->] | (files & elements & _ & _ & ->)]; cbn;
    by apply prepared_root.
Qed.

Lemma setDirectory_selected (fs : FileSystem) (directoryPath : string)
  (this : Component) :
  directorySelected (setDirectory fs directoryPath this).2 = directorySelected this.
Proof.
  assert (Hp : directorySelected (prepared this directoryPath)
               = directorySelected this)
    by (unfold prepared; by destruct (JsText.falsy _)).
  destruct (setDirectory_cases fs directoryPath this)
    as [[e ->] | (files & elements & _ & _ & ->)]; by cbn.
Qed.

Lemma refreshedPathStack_head (root directoryPath : string) (stack : list string) :
  refreshedPathStack root directoryPath = Some stack → ∃ names, stack = root :: names.
Proof.
  unfold refreshedPathStack.
  destruct (JsText.stringSplit directoryPath root !! 1) as [piece|]; [|done].
  destruct (String.eqb piece ""); [done|]. intros [= <-]. by eexists.
Qed.

Lemma prepared_coherent (this : Component) (directoryPath : string) :
  coherent this → coherent (prepared this directoryPath).
Proof.
  intros [Hitems Hstack]. unfold prepared.
  destruct (JsText.falsy (_assetsDirectory this)) eqn:Hfalsy; [|done].
  split; [done|]. cbn. intros root [= <-] _. by exists [].
Qed.

Lemma itemOf_coherent (fs : FileSystem) (root directoryPath : string) (item : Item) :
  itemOf fs root directoryPath item →
  String.prefix "." (title item) = false →
  coherentItem item.
Proof.
  intros (isDirectory & _ & Hpath & Htype & _ & Hclick) Hshown.
  split; [done|]. by exists directoryPath, isDirectory.
Qed.

Lemma setDirectory_coherent (fs : FileSystem) (directoryPath : string)
  (this : Component) :
  coherent this → coherent (setDirectory fs directoryPath this).2.
Proof.
  intros Hthis. pose proof (prepared_coherent _ directoryPath Hthis) as [Hitems Hstack].
  destruct (setDirectory_cases fs directoryPath this)
    as [[e ->] | (files & elements & _ & Hbuild & ->)]; [done|].
  cbn [snd]. apply buildItems_Normal in Hbuild as [Htitles Helements].
  split.
  - unfold listed. cbn. apply Forall_forall. intros item Hin.
    eapply itemOf_coherent; [by eapply Forall_forall in Helements|].
    assert (Ht : title item ∈ List.filter shown files)
      by (rewrite <- Htitles; by apply list_elem_of_fmap_2).
    apply list_elem_of_In, List.filter_In in Ht as [_ Ht]. by apply shown_spec.
  - unfold listed. cbn. intros root Hroot Hne.
    destruct (refreshedPathStack _ _) as [stack|] eqn:Hrefreshed; cbn.
    + rewrite (assetsDirectoryOf_set _ _ Hroot) in Hrefreshed.
      by eapply refreshedPathStack_head.
    + by apply Hstack.
Qed.

Lemma handle_run (fs : FileSystem) (directoryPath f : string) (this : Component) :
  _handleItemDoubleClicked fs directoryPath f true this
  = setDirectory fs (Path.join directoryPath f)
      {| _assetsDirectory := _assetsDirectory this;
         state := withCurrentDirectory
                    (withPathStack (state this) (pathStack (state this) ++ [f]))
                    (Path.join directoryPath f);
         directorySelected := directorySelected this ++ [Path.join directoryPath f] |}.
Proof. reflexivity. Qed.

Lemma handle_coherent (fs : FileSystem) (directoryPath f : string)
  (isDirectory : bool) (this : Component) :
  coherent this →
  coherent (_handleItemDoubleClicked fs directoryPath f isDirectory this).2.
Proof.
  intros [Hitems Hstack]. destruct isDirectory; [|done].
  rewrite handle_run. apply setDirectory_coherent. split; [done|].
  cbn. intros root Hroot Hne. destruct (Hstack root Hroot Hne) as [names ->].
  by exists (names ++ [f]).
Qed.

Lemma handle_root (fs : FileSystem) (directoryPath f : string)
  (isDirectory : bool) (this : Component) (root : string) :
  _assetsDirectory this = Some root → root ≠ "" →
  _assetsDirectory (_handleItemDoubleClicked fs directoryPath f isDirectory this).2
  = Some root.
Proof.
  intros Hroot Hne. destruct isDirectory; [|done].
  rewrite handle_run. by apply setDirectory_root.
Qed.

Lemma perform_unfold (fs : FileSystem) (action : Action) (this : Component) :
  perform fs action this
  = match action with
    | ShowDirectory directoryPath => setDirectory fs directoryPath this
    | Refresh => setDirectory fs (currentDirectory (state this)) this
    | DoubleClick index =>
        match items (state this) !! index with
        | Some item =>
            _handleItemDoubleClicked fs (onDoubleClick item).1.1
              (onDoubleClick item).1.2 (onDoubleClick item).2 this
        | None => (Normal (), this)
        end
    | ClickBreadcrumb index =>
        match _getBreadcrumbsItems this !! index with
        | Some crumb => setDirectory fs (onClick crumb) this
        | None => (Normal (), this)
        end
    end.
Proof.
  destruct action as [directoryPath | | index | index]; try reflexivity.
  - unfold perform, mbind, C_bind, getThis.
    destruct (items (state this) !! index) as [item|]; [|done].
    by destruct (onDoubleClick item) as [[d f] b].
  - unfold perform, mbind, C_bind, getThis.
    by destruct (_getBreadcrumbsItems this !! index).
Qed.

Lemma perform_coherent (fs : FileSystem) (action : Action) (this : Component) :
  coherent this → coherent (perform fs action this).2.
Proof.
  intros Hthis. rewrite perform_unfold.
  destruct action as [directoryPath | | index | index].
  - by apply setDirectory_coherent.
  - by apply setDirectory_coherent.
  - destruct (items (state this) !! index) as [item|]; [|done].
    by apply handle_coherent.
  - destruct (_getBreadcrumbsItems this !! index) as [crumb|]; [|done].
    by apply setDirectory_coherent.
Qed.

Lemma perform_root (fs : FileSystem) (action : Action) (this : Component)
  (root : string) :
  _assetsDirectory this = Some root → root ≠ "" →
  _assetsDirectory (perform fs action this).2 = Some root.
Proof.
  intros Hroot Hne. rewrite perform_unfold.
  destruct action as [directoryPath | | index | index].
  - by apply setDirectory_root.
  - by apply setDirectory_root.
  - destruct (items (state this) !! index) as [item|]; [|done].
    by apply handle_root.
  - destruct (_getBreadcrumbsItems this !! index) as [crumb|]; [|done].
    by apply setDirectory_root.
Qed.

Lemma session_coherent (steps : list (FileSystem * Action)) (this : Component) :
  coherent this → coherent (session steps this).
Proof.
  revert this. induction steps as [|[fs action] steps IH]; intros this Hthis;
    [done|].
  cbn. by apply IH, perform_coherent.
Qed.

Lemma initial_coherent : coherent initial.
Proof. split; [constructor | done]. Qed.

Lemma session_root
  (steps : list (FileSystem * Action)) (this : Component) (root : string) :
  _assetsDirectory this = Some root → root ≠ "" →
  _assetsDirectory (session steps this) = Some root.
Proof.
  revert this. induction steps as [|[fs action] steps IH]; intros this Hroot Hne;
    [done|].
  cbn. apply IH; [|done]. by apply perform_root.
Qed.

(** The asset root is set once: after the first listing of a directory with
    a non-empty path, nothing the user or the container does to the view
    changes it. *)
Theorem assets_directory_is_set_once
  (steps : list (FileSystem * Action)) (this : Component) (root : string) :
  _assetsDirectory this = Some root → root ≠ "" →
  _assetsDirectory (session steps this) = Some root.
Proof. apply session_root. Qed.

(** A session on the sample project that even asks for a directory outside
    the asset root. *)
Lemma assets_directory_is_set_once_witness :
  _assetsDirectory
    (session [(sampleFs, DoubleClick 0); (sampleFs, ShowDirectory "/elsewhere");
              (sampleFs, ClickBreadcrumb 0); (sampleFs, Refresh)]
       (setDirectory sampleFs "/proj/assets" initial).2)
  = Some "/proj/assets".
Proof.
  apply (assets_directory_is_set_once
           [(sampleFs, DoubleClick 0); (sampleFs, ShowDirectory "/elsewhere");
            (sampleFs, ClickBreadcrumb 0); (sampleFs, Refresh)]
           (setDirectory sampleFs "/proj/assets" initial).2 "/proj/assets");
    [reflexivity | discriminate].
Defined.

(** Whatever the session, from the component as constructed: no item shown
    has a title that starts with a dot; the closure of every item opens the
    entry the item shows (its path is the item's [absolutePath], and it
    holds a directory exactly when the item has the type [directory]); and
    once the asset root is set, the path stack starts with it. *)
Theorem session_keeps_the_view_coherent (steps : list (FileSystem * Action)) :
  Forall coherentItem (items (state (session steps initial)))
  ∧ ∀ root,
      _assetsDirectory (session steps initial) = Some root → root ≠ "" →
      ∃ names, pathStack (state (session steps initial)) = root :: names.
Proof. apply (session_coherent steps initial), initial_coherent. Qed.
End FilesViewSessions.

(* ===================================================================== *)
(** ** The files view: double clicks and breadcrumbs *)
(* ===================================================================== *)

Section FilesViewClicks.
Import AssetsBrowserFiles.

Lemma setDirectory_currentDirectory (fs : FileSystem) (directoryPath : string)
  (this : Component) :
  currentDirectory (state (setDirectory fs directoryPath this).2)
  = if JsText.falsy (_assetsDirectory this) then directoryPath
    else currentDirectory (state this).
Proof.
  assert (Hp : currentDirectory (state (prepared this directoryPath))
               = if JsText.falsy (_assetsDirectory this) then directoryPath
                 else currentDirectory (state this))
    by (unfold prepared; by destruct (JsText.falsy _)).
  destruct (setDirectory_cases fs directoryPath this)
    as [[e ->] | (files & elements & _ & _ & ->)]; [done|].
  unfold listed. cbn. by destruct (refreshedPathStack _ _).
Qed.

(** In any session, a double click on an item that shows a file changes
    nothing at all, and a double click on an item that shows a directory
    tells the container, once, the [absolutePath] of the item and makes it
    the current directory, whether or not the directory can then be
    listed. *)
Theorem doubleClick_opens_the_item_shown
  (steps : list (FileSystem * Action)) (fs : FileSystem) (index : nat)
  (item : Item) :
  items (state (session steps initial)) !! index = Some item →
  (type item = file →
   perform fs (DoubleClick index) (session steps initial)
   = (Normal (), session steps initial))
  ∧ (type item = directory →
     directorySelected (perform fs (DoubleClick index) (session steps initial)).2
     = directorySelected (session steps initial) ++ [absolutePath item]
     ∧ currentDirectory
         (state (perform fs (DoubleClick index) (session steps initial)).2)
       = absolutePath item).
Proof.
  intros Hitem.
  destruct (session_coherent steps initial initial_coherent) as [Hitems _].
  set (this := session steps initial) in *.
  eapply Forall_lookup_1 in Hitems as (_ & d & b & Hclick & Hpath & Htype);
    [|exact Hitem].
  rewrite perform_unfold, Hitem, Hclick. cbn [fst snd].
  split; intros Hkind; rewrite Hkind in Htype; destruct b; try done.
  rewrite handle_run, setDirectory_selected, setDirectory_currentDirectory. cbn.
  rewrite Hpath. split; [done|]. by destruct (JsText.falsy _).
Qed.

(** A double click on the folder [mats]. *)
Lemma doubleClick_opens_the_item_shown_witness :
  directorySelected
    (perform sampleFs (DoubleClick 0)
       (session [(sampleFs, ShowDirectory "/proj/assets")] initial)).2
  = ["/proj/assets/mats"]
  ∧ currentDirectory
      (state (perform sampleFs (DoubleClick 0)
                (session [(sampleFs, ShowDirectory "/proj/assets")] initial)).2)
    = "/proj/assets/mats".
Proof.
  apply (doubleClick_opens_the_item_shown
           [(sampleFs, ShowDirectory "/proj/assets")] sampleFs 0
           {| title := "mats"; absolutePath := "/proj/assets/mats";
              type := directory; relativePath := "mats";
              onDoubleClick := ("/proj/assets", "mats", true) |});
    reflexivity.
Defined.

Lemma breadcrumbsFrom_lookup (acc rest : list string) (i : nat) (p : string) :
  rest !! i = Some p →
  breadcrumbsFrom acc rest !! i
  = Some {| text := PathName.basename p;
            onClick := JsText.arrayJoin (acc ++ take (S i) rest) "/" |}.
Proof.
  revert acc i. induction rest as [|q rest IH]; intros acc i; [done|].
  destruct i as [|i]; cbn [breadcrumbsFrom].
  - intros [= ->]. cbn. by rewrite take_0.
  - intros Hi. change ((q :: rest) !! S i) with (rest !! i) in Hi.
    etrans; [exact (IH (acc ++ [q]) i Hi)|].
    cbn [take]. by rewrite <- app_assoc.
Qed.

Lemma breadcrumbsFrom_length (acc rest : list string) :
  length (breadcrumbsFrom acc rest) = length rest.
Proof.
  revert acc. induction rest as [|q rest IH]; intros acc; [done|].
  cbn. by rewrite IH.
Qed.

(** There is one breadcrumb per entry of the path stack, in order; the one
    at place [i] is labelled with the base name of that entry and leads to
    the path made of the first [i + 1] entries joined with ["/"]. *)
Theorem breadcrumbs_lead_to_the_prefixes (this : Component) :
  length (_getBreadcrumbsItems this) = length (pathStack (state this))
  ∧ ∀ i p,
      pathStack (state this) !! i = Some p →
      _getBreadcrumbsItems this !! i
      = Some {| text := PathName.basename p;
                onClick := JsText.arrayJoin (take (S i) (pathStack (state this))) "/" |}.
Proof.
  split; [apply breadcrumbsFrom_length|].
  intros i p Hi. unfold _getBreadcrumbsItems.
  by rewrite (breadcrumbsFrom_lookup [] _ i p Hi).
Qed.
End FilesViewClicks.

Section FilesViewBreadcrumbClicks.
Import AssetsBrowserFiles.

Lemma filter_nonempty_all (names : list string) :
  Forall (λ n, n ≠ "" ∧ Path.slashFree n = true) names →
  List.filter (λ d, negb (String.eqb d "")) names = names.
Proof.
  induction 1 as [|n names [Hn _] _ IH]; [done|]. cbn.
  apply String.eqb_neq in Hn. by rewrite Hn, IH.
Qed.

Lemma listed_pathStack (this : Component) (root t : string)
  (elements : list Item) :
  _assetsDirectory this = Some root → root ≠ "" →
  JsString.includes t root = false →
  pathStack (state (listed this (root +:+ t) elements))
  = if String.eqb t "" then pathStack (state this)
    else root :: List.filter (λ d, negb (String.eqb d "")) (Path.split t).
Proof.
  intros Hthis Hroot Ht. unfold listed.
  rewrite (prepared_set _ _ _ Hthis Hroot), (assetsDirectoryOf_set _ _ Hthis).
  rewrite (refreshedPathStack_below _ _ Hroot Ht).
  by destruct (String.eqb t "").
Qed.

Lemma includes_empty (root : string) : root ≠ "" → JsString.includes "" root = false.
Proof. by destruct root. Qed.

(** A click on a breadcrumb other than the first, when the listing it asks
    for succeeds, cuts the path stack back to that breadcrumb; a click on
    the first one, the asset root, lists the root but leaves the path stack
    as it is. Neither changes [currentDirectory]. (The names of the stack
    are taken non-empty and free of separators, and the root not to occur
    again in the path clicked.) *)
Theorem clickBreadcrumb_cuts_the_path_stack
  (fs : FileSystem) (this : Component) (root : string) (names : list string)
  (k : nat) :
  _assetsDirectory this = Some root →
  root ≠ "" →
  pathStack (state this) = root :: names →
  Forall (λ n, n ≠ "" ∧ Path.slashFree n = true) names →
  k ≤ length names →
  JsString.includes (String.concat "/" ("" :: take k names)) root = false →
  (perform fs (ClickBreadcrumb k) this).1 = Normal () →
  pathStack (state (perform fs (ClickBreadcrumb k) this).2)
  = (if decide (k = 0) then root :: names else root :: take k names)
  ∧ currentDirectory (state (perform fs (ClickBreadcrumb k) this).2)
    = currentDirectory (state this).
Proof.
  intros Hthis Hroot Hstack Hnames Hk Hout.
  assert (Hp : ∃ p, pathStack (state this) !! k = Some p).
  { apply lookup_lt_is_Some_2. rewrite Hstack. cbn. lia. }
  destruct Hp as [p Hp].
  rewrite perform_unfold. unfold _getBreadcrumbsItems.
  rewrite (breadcrumbsFrom_lookup [] _ k p Hp). cbn [onClick app].
  rewrite Hstack. cbn [take]. unfold JsText.arrayJoin.
  assert (Hfalsy : JsText.falsy (_assetsDirectory this) = false).
  { rewrite Hthis. cbn. by apply String.eqb_neq. }
  assert (Hclicked : String.concat "/" (root :: take k names)
                     = root +:+ (if decide (k = 0) then ""
                                 else String.concat "/" ("" :: take k names))).
  { destruct k as [|k];
      [rewrite take_0; cbn; by rewrite NormalFormFacts.append_empty_r|].
    destruct names as [|n names]; [cbn in Hk; lia|].
    rewrite firstn_cons, !PathFacts.concat_cons. reflexivity. }
  rewrite Hclicked.
  set (t := if decide (k = 0) then "" else String.concat "/" ("" :: take k names)).
  assert (Ht : JsString.includes t root = false).
  { subst t. destruct (decide (k = 0)); [by apply includes_empty | done]. }
  intros Hok. rewrite setDirectory_currentDirectory, Hfalsy. split; [|done].
  destruct (setDirectory_cases fs (root +:+ t) this)
    as [[e He] | (files & elements & _ & _ & Hrun)];
    [by rewrite He in Hok|].
  rewrite Hrun. cbn [snd]. rewrite (listed_pathStack _ _ _ _ Hthis Hroot Ht).
  subst t. destruct (decide (k = 0)) as [-> | Hk0]; [done|].
  destruct k as [|k]; [done|]. destruct names as [|n names]; [cbn in Hk; lia|].
  assert (Htake : Forall (λ n, n ≠ "" ∧ Path.slashFree n = true)
                    (take (S k) (n :: names)))
    by (by apply Forall_take).
  assert (Hfree : Forall (λ n, Path.slashFree n = true) ("" :: take (S k) (n :: names))).
  { constructor; [done|]. eapply Forall_impl; [exact Htake | by intros ? [_ ?]]. }
  rewrite PathFacts.split_concat by done.
  cbn [List.filter String.eqb negb].
  by rewrite filter_nonempty_all.
Qed.

(** A click on the first breadcrumb and a click on the second, with the
    sample project opened at [mats]. *)
Lemma clickBreadcrumb_cuts_the_path_stack_witness :
  (pathStack
     (state (perform sampleFs (ClickBreadcrumb 0)
               (session [(sampleFs, ShowDirectory "/proj/assets");
                         (sampleFs, DoubleClick 0)] initial)).2)
   = ["/proj/assets"; "mats"]
   ∧ currentDirectory
       (state (perform sampleFs (ClickBreadcrumb 0)
                 (session [(sampleFs, ShowDirectory "/proj/assets");
                           (sampleFs, DoubleClick 0)] initial)).2)
     = "/proj/assets/mats")
  ∧ (pathStack
       (state (perform sampleFs (ClickBreadcrumb 1)
                 (session [(sampleFs, ShowDirectory "/proj/assets");
                           (sampleFs, DoubleClick 0)] initial)).2)
     = ["/proj/assets"; "mats"]
     ∧ currentDirectory
         (state (perform sampleFs (ClickBreadcrumb 1)
                   (session [(sampleFs, ShowDirectory "/proj/assets");
                             (sampleFs, DoubleClick 0)] initial)).2)
       = "/proj/assets/mats").
Proof.
  split.
  - apply (clickBreadcrumb_cuts_the_path_stack sampleFs
             (session [(sampleFs, ShowDirectory "/proj/assets");
                       (sampleFs, DoubleClick 0)] initial)
             "/proj/assets" ["mats"] 0);
      [reflexivity | discriminate | reflexivity | | simpl; lia | reflexivity
      | reflexivity].
    repeat constructor; discriminate.
  - apply (clickBreadcrumb_cuts_the_path_stack sampleFs
             (session [(sampleFs, ShowDirectory "/proj/assets");
                       (sampleFs, DoubleClick 0)] initial)
             "/proj/assets" ["mats"] 1);
      [reflexivity | discriminate | reflexivity | | simpl; lia | reflexivity
      | reflexivity].
    repeat constructor; discriminate.
Defined.
End FilesViewBreadcrumbClicks.

(* ===================================================================== *)
(** ** The files view and the move handler *)
(* ===================================================================== *)

Section FilesViewAndMoves.
Import AssetsBrowserFiles.

(** The relative path the view shows for an item is the stored path the
    move handler looks for: for an item listed below a non-empty asset
    root, [relativePath] is what follows the root and its separator in
    [absolutePath], it resolves against the root to [absolutePath], and a
    move of [absolutePath] updates every material whose [editorPath] is
    that relative path. *)
Theorem listed_item_is_found_by_moveFile
  (fs : FileSystem) (directoryPath : string) (this : Component) (item : Item)
  (rest : string) (w : World) (to : string) (index : nat) (mat : Material) :
  (setDirectory fs directoryPath this).1 = Normal () →
  item ∈ items (state (setDirectory fs directoryPath this).2) →
  _assetsDirectory (setDirectory fs directoryPath this).2 = Some (assetsDirectory w) →
  assetsDirectory w ≠ "" →
  absolutePath item = Path.join (assetsDirectory w) "/" +:+ rest →
  rest ≠ "" →
  materials w !! index = Some mat →
  editorPathOf mat = Some (relativePath item) →
  relativePath item = rest
  ∧ Path.join (assetsDirectory w) (relativePath item) = absolutePath item
  ∧ ∃ mat',
      materials (moveFile (absolutePath item) to w).2 !! index = Some mat'
      ∧ editorPathOf mat' = Some (newEditorPath (assetsDirectory w) to).
Proof.
  intros Hok Hin Hroot Hne Hbelow Hrest Hi Hp.
  destruct (setDirectory_cases fs directoryPath this)
    as [[e He] | (files & elements & _ & Hbuild & Hrun)];
    [by rewrite He in Hok|].
  rewrite Hrun in Hin, Hroot. cbn [snd] in Hin, Hroot.
  apply buildItems_Normal in Hbuild as [_ Helements].
  assert (Hitem : itemOf fs (assetsDirectory w) directoryPath item).
  { unfold listed in Hin, Hroot. cbn in Hin, Hroot.
    rewrite (assetsDirectoryOf_set _ _ Hroot) in Helements.
    by eapply Forall_forall in Helements. }
  destruct Hitem as (isDirectory & _ & Hpath & _ & Hrelative & _).
  assert (Hrel : relativePath item = rest).
  { rewrite Hrelative, Hbelow. by rewrite JsStringFacts.replace_prefix. }
  assert (Hjoin : Path.join (assetsDirectory w) (relativePath item)
                  = absolutePath item).
  { rewrite Hrel, <- JoinFacts.join_rest, <- Hbelow, Hpath by done.
    apply NormalFormFacts.join_normalized. }
  split_and!; try done.
  assert (Hm : matchesFrom (assetsDirectory w) (absolutePath item) mat = true).
  { apply matchesFrom_true. exists (relativePath item).
    split_and!; try done. by rewrite Hrel. }
  eexists. split; [by apply moveFile_matched|]. by eapply editorPathOf_assign.
Qed.

(** The material [old.material] of the sample project, listed in [mats], and
    the sample scene. *)
Lemma listed_item_is_found_by_moveFile_witness :
  relativePath
    {| title := "old.material"; absolutePath := "/proj/assets/mats/old.material";
       type := file; relativePath := "mats/old.material";
       onDoubleClick := ("/proj/assets/mats", "old.material", false) |}
  = "mats/old.material"
  ∧ Path.join sampleRoot "mats/old.material" = "/proj/assets/mats/old.material"
  ∧ ∃ mat',
      materials (moveFile "/proj/assets/mats/old.material" sampleTo sampleWorld).2 !! 0
      = Some mat'
      ∧ editorPathOf mat' = Some (newEditorPath sampleRoot sampleTo).
Proof.
  apply (listed_item_is_found_by_moveFile sampleFs "/proj/assets/mats"
           (setDirectory sampleFs "/proj/assets" initial).2
           {| title := "old.material";
              absolutePath := "/proj/assets/mats/old.material";
              type := file; relativePath := "mats/old.material";
              onDoubleClick := ("/proj/assets/mats", "old.material", false) |}
           "mats/old.material" sampleWorld sampleTo 0
           (mkMaterial "wood" (Some "mats/old.material")));
    [reflexivity | vm_compute; by left | reflexivity | discriminate
    | reflexivity | discriminate | reflexivity | reflexivity].
Defined.
End FilesViewAndMoves.

Module RootListingFacts.
Import Path PathFacts NormalizeFacts JoinFacts.

Lemma slashFree_append (a b : string) :
  slashFree (a +:+ b) = slashFree a && slashFree b.
Proof.
  induction a as [|c a IH]; [done|].
  rewrite append_cons. cbn. rewrite IH. by rewrite andb_assoc.
Qed.

Lemma slashFree_excludes (s pattern : string) :
  slashFree s = true → slashFree pattern = false →
  JsString.includes s pattern = false.
Proof.
  intros Hs Hp. destruct (JsString.includes s pattern) eqn:E; [|done].
  apply JsStringMore.includes_true in E as (before & after & ->).
  rewrite !slashFree_append, Hp in Hs. by rewrite andb_false_r in Hs.
Qed.

Lemma concat_snoc (x f : string) (l : list string) :
  String.concat "/" ((x :: l) ++ [f])
  = String.concat "/" (x :: l) +:+ String "/" f.
Proof.
  revert x. induction l as [|y l IH]; intros x; [done|].
  change ((x :: y :: l) ++ [f]) with (x :: ((y :: l) ++ [f])).
  destruct ((y :: l) ++ [f]) as [|z l'] eqn:E; [done|].
  rewrite concat_cons, <- E, IH, concat_cons. by rewrite append_assoc.
Qed.

(** Below a non-empty directory, a plain name is found right after the
    directory and its separator, or stands alone when the directory is the
    current one. *)
Lemma replace_join_plain (root f : string) :
  root ≠ "" → plain f →
  JsString.replace (join root f) (join root "/") "" = f.
Proof.
  intros Hroot Hplain. pose proof Hplain as (Hf & _ & _ & Hfree).
  rewrite join_separator, join_below by done.
  rewrite split_slashFree by done. cbn [fold_left].
  rewrite (step_plain _ _ _ Hplain), (NormalFormFacts.endsWithSlash_slashFree f Hf Hfree).
  set (abs := startsWithSlash root).
  pose proof (normalizeSegments_wf (negb abs) root) as Hwf.
  set (st := normalizeSegments (negb abs) (split root)) in *.
  pose proof (wf_segments _ _ Hwf) as Hsegs.
  destruct (rev st) as [|x l] eqn:Hrev.
  - apply (f_equal (@rev string)) in Hrev. rewrite rev_involutive in Hrev.
    rewrite Hrev. unfold finish. cbn [rev app String.concat].
    apply String.eqb_neq in Hf as Hf'. rewrite Hf'. cbn [String.eqb].
    destruct abs.
    + by rewrite JsStringFacts.replace_prefix.
    + by rewrite JsStringFacts.replace_absent by (by apply slashFree_excludes).
  - assert (Hx : x ≠ "").
    { assert (Hxl : Forall (λ seg, seg ≠ "" ∧ slashFree seg = true) (x :: l))
        by (rewrite <- Hrev; by apply Forall_rev).
      by apply Forall_cons in Hxl as [[? _] _]. }
    rewrite (finish_cons abs st l x Hrev Hx).
    unfold finish. cbn [rev]. rewrite Hrev, concat_snoc.
    assert (Hne : String.concat "/" (x :: l) +:+ String "/" f ≠ "")
      by (by apply append_nonempty_r).
    apply String.eqb_neq in Hne. rewrite Hne.
    destruct abs.
    + change ("/" +:+ ?s) with (String "/" s).
      rewrite <- append_cons.
      change (String "/" f) with ("/" +:+ f). rewrite <- append_assoc.
      rewrite <- append_cons. by rewrite JsStringFacts.replace_prefix.
    + change (String "/" f) with ("/" +:+ f). rewrite <- append_assoc.
      by rewrite JsStringFacts.replace_prefix.
Qed.
End RootListingFacts.

Section FilesViewRoot.
Import AssetsBrowserFiles.

(** In a listing of the asset root itself, the relative path of an item is
    its title (entry names are non-empty and hold no separator). *)
Theorem root_listing_shows_titles
  (fs : FileSystem) (this : Component) (root : string) (item : Item) :
  _assetsDirectory (setDirectory fs root this).2 = Some root →
  root ≠ "" →
  (setDirectory fs root this).1 = Normal () →
  item ∈ items (state (setDirectory fs root this).2) →
  title item ≠ "" →
  Path.slashFree (title item) = true →
  relativePath item = title item.
Proof.
  intros Hroot Hne Hok Hin Htitle Hfree.
  destruct (setDirectory_cases fs root this)
    as [[e He] | (files & elements & _ & Hbuild & Hrun)];
    [by rewrite He in Hok|].
  rewrite Hrun in Hin, Hroot. cbn [snd] in Hin, Hroot.
  apply buildItems_Normal in Hbuild as [Htitles Helements].
  unfold listed in Hin, Hroot. cbn in Hin, Hroot.
  rewrite (assetsDirectoryOf_set _ _ Hroot) in Helements.
  assert (Hshown : String.prefix "." (title item) = false).
  { assert (Ht : title item ∈ List.filter shown files)
      by (rewrite <- Htitles; by apply list_elem_of_fmap_2).
    apply list_elem_of_In, List.filter_In in Ht as [_ Ht]. by apply shown_spec. }
  eapply Forall_forall in Helements as (d & _ & Hpath & _ & Hrelative & _);
    [|exact Hin].
  rewrite Hrelative, Hpath. apply RootListingFacts.replace_join_plain; [done|].
  split_and!; try done; intros Heq; by rewrite Heq in Hshown.
Qed.

(** The folder [mats] in the listing of the sample root. *)
Lemma root_listing_shows_titles_witness :
  relativePath
    {| title := "mats"; absolutePath := "/proj/assets/mats"; type := directory;
       relativePath := "mats"; onDoubleClick := ("/proj/assets", "mats", true) |}
  = "mats".
Proof.
  apply (root_listing_shows_titles sampleFs initial "/proj/assets"
           {| title := "mats"; absolutePath := "/proj/assets/mats";
              type := directory; relativePath := "mats";
              onDoubleClick := ("/proj/assets", "mats", true) |});
    [reflexivity | discriminate | reflexivity | vm_compute; by left
    | discriminate | reflexivity].
Defined.
End FilesViewRoot.

(* ===================================================================== *)
(** ** The node that adds a mesh to a shadow generator *)
(* ===================================================================== *)

Section ShadowNode.
Import AddMeshToShadowGenerator.

Lemma renderListOf_push (light : Light) (mesh : Mesh) :
  renderListOf (push light mesh) = (λ list, list ++ [mesh]) <$> renderListOf light.
Proof.
  unfold renderListOf, push.
  destruct light as [[[[[[list|]]|]]|]]; reflexivity.
Qed.

Lemma push_without_list (light : Light) (mesh : Mesh) :
  renderListOf light = None → push light mesh = light.
Proof.
  unfold renderListOf, push.
  by destruct light as [[[[[[list|]]|]]|]].
Qed.

(** The node never checks whether the mesh is in the render list already,
    and never removes or reorders what is there: executed [n] times with
    the same mesh on a light that has a render list, it leaves the list
    followed by [n] copies of the mesh, and triggers its output [n]
    times. *)
Theorem execute_appends_every_time
  (n : nat) (mesh : Mesh) (light : Light) (list : list Mesh) :
  renderListOf light = Some list →
  renderListOf (executeTimes n mesh light).1 = Some (list ++ replicate n mesh)
  ∧ (executeTimes n mesh light).2 = replicate n 0.
Proof.
  revert light list. induction n as [|n IH]; intros light list Hlist.
  - cbn. by rewrite app_nil_r.
  - cbn [executeTimes execute].
    specialize (IH (push light mesh) (list ++ [mesh])).
    destruct (executeTimes n mesh (push light mesh)) as [light'' fired'].
    cbn [fst snd] in *.
    destruct IH as [IHlist IHfired]; [by rewrite renderListOf_push, Hlist|].
    split; [|by rewrite IHfired].
    rewrite IHlist, <- app_assoc. reflexivity.
Qed.

(** A mesh that is in the render list already, added twice more. *)
Lemma execute_appends_every_time_witness :
  renderListOf (executeTimes 2 (MeshRef 7) (castingLight [MeshRef 1; MeshRef 7])).1
  = Some ([MeshRef 1; MeshRef 7] ++ replicate 2 (MeshRef 7))
  ∧ (executeTimes 2 (MeshRef 7) (castingLight [MeshRef 1; MeshRef 7])).2
    = replicate 2 0.
Proof.
  apply (execute_appends_every_time 2 (MeshRef 7)
           (castingLight [MeshRef 1; MeshRef 7]) [MeshRef 1; MeshRef 7]).
  reflexivity.
Defined.

(** The output is triggered exactly when both inputs carry data, also when
    the light casts no shadow; the light is changed only by a mesh appended
    to its render list, and a light without a render list (or without
    shadow map, or without shadow generator) is left as it is. *)
Theorem execute_triggers_with_both_inputs (mesh : option Mesh) (light : option Light) :
  ((execute mesh light).2 = [0] ↔ is_Some mesh ∧ is_Some light)
  ∧ ((execute mesh light).2 = [] ↔ mesh = None ∨ light = None)
  ∧ (∀ m l, mesh = Some m → light = Some l →
       ∃ l', (execute mesh light).1 = Some l'
             ∧ renderListOf l' = (λ list, list ++ [m]) <$> renderListOf l
             ∧ (renderListOf l = None → l' = l))
  ∧ (mesh = None → (execute mesh light).1 = light).
Proof.
  split_and!.
  - destruct mesh as [m|], light as [l|]; cbn; split;
      try done; try (intros [[? [=]] [? [=]]]); try (intros [_ [? [=]]]);
      try (intros [[? [=]] _]); by intros _; split; eexists.
  - destruct mesh as [m|], light as [l|]; cbn; split; try done;
      try (by intros [[=]|[=]]); try (by intros _; left); by intros _; right.
  - intros m l -> ->. exists (push l m). cbn. split_and!; [done | |].
    + apply renderListOf_push.
    + apply push_without_list.
  - by intros ->.
Qed.
End ShadowNode.

(* ===================================================================== *)
(** ** The files view: the first listing, and a listing made again *)
(* ===================================================================== *)

Section FilesViewFirstAndAgain.
Import AssetsBrowserFiles.

Lemma refreshedPathStack_same (root : string) :
  refreshedPathStack root root = None.
Proof.
  destruct (decide (root = "")) as [-> | Hroot]; [done|].
  pose proof (refreshedPathStack_below root "" Hroot (includes_empty root Hroot)) as H.
  by rewrite NormalFormFacts.append_empty_r in H.
Qed.

Lemma prepared_unset (this : Component) (directoryPath : string) :
  JsText.falsy (_assetsDirectory this) = true →
  _assetsDirectory (prepared this directoryPath) = Some directoryPath
  ∧ pathStack (state (prepared this directoryPath)) = [directoryPath]
  ∧ currentDirectory (state (prepared this directoryPath)) = directoryPath.
Proof. intros H. unfold prepared. by rewrite H. Qed.

(** The first listing fixes the asset root, whether it succeeds or not: on
    a component whose asset root is not set yet, [setDirectory] of a
    non-empty path makes that path the asset root, the one entry of the
    path stack and the current directory, even when the directory cannot
    be read; and no later action changes the asset root. *)
Theorem first_listing_fixes_the_root
  (fs : FileSystem) (directoryPath : string) (this : Component)
  (steps : list (FileSystem * Action)) :
  JsText.falsy (_assetsDirectory this) = true →
  directoryPath ≠ "" →
  _assetsDirectory (setDirectory fs directoryPath this).2 = Some directoryPath
  ∧ pathStack (state (setDirectory fs directoryPath this).2) = [directoryPath]
  ∧ currentDirectory (state (setDirectory fs directoryPath this).2) = directoryPath
  ∧ _assetsDirectory (session steps (setDirectory fs directoryPath this).2)
    = Some directoryPath.
Proof.
  intros Hunset Hne.
  destruct (prepared_unset this directoryPath Hunset) as (Hroot & Hstack & Hcurrent).
  assert (H : _assetsDirectory (setDirectory fs directoryPath this).2
              = Some directoryPath
              ∧ pathStack (state (setDirectory fs directoryPath this).2)
                = [directoryPath]
              ∧ currentDirectory (state (setDirectory fs directoryPath this).2)
                = directoryPath).
  { destruct (setDirectory_cases fs directoryPath this)
      as [[e ->] | (files & elements & _ & _ & ->)]; [done|].
    unfold listed. cbn.
    rewrite (assetsDirectoryOf_set _ _ Hroot), refreshedPathStack_same. by cbn. }
  destruct H as (H1 & H2 & H3). split_and!; try done.
  by apply session_root.
Qed.

Lemma first_listing_fixes_the_root_witness :
  _assetsDirectory (setDirectory sampleFs "/proj/missing" initial).2
  = Some "/proj/missing"
  ∧ pathStack (state (setDirectory sampleFs "/proj/missing" initial).2)
    = ["/proj/missing"]
  ∧ currentDirectory (state (setDirectory sampleFs "/proj/missing" initial).2)
    = "/proj/missing"
  ∧ _assetsDirectory
      (session [(sampleFs, ShowDirectory "/proj/assets")]
         (setDirectory sampleFs "/proj/missing" initial).2)
    = Some "/proj/missing".
Proof.
  apply (first_listing_fixes_the_root sampleFs "/proj/missing" initial
           [(sampleFs, ShowDirectory "/proj/assets")]);
    [reflexivity | discriminate].
Defined.

Lemma prepared_again (this : Component) (directoryPath : string) :
  prepared (prepared this directoryPath) directoryPath = prepared this directoryPath.
Proof.
  unfold prepared at 2 3.
  destruct (JsText.falsy (_assetsDirectory this)) eqn:Hfalsy.
  - unfold prepared. cbn. by destruct (String.eqb directoryPath "").
  - unfold prepared. by rewrite Hfalsy.
Qed.

Lemma prepared_listed (this : Component) (directoryPath : string)
  (elements : list Item) :
  prepared (listed this directoryPath elements) directoryPath
  = listed this directoryPath elements.
Proof.
  unfold listed.
  destruct (JsText.falsy (_assetsDirectory this)) eqn:Hfalsy.
  - destruct (prepared_unset this directoryPath Hfalsy) as (Hroot & Hstack & Hcurrent).
    rewrite (assetsDirectoryOf_set _ _ Hroot), refreshedPathStack_same.
    unfold prepared at 1. cbn [_assetsDirectory]. rewrite Hroot. cbn [JsText.falsy].
    destruct (String.eqb directoryPath ""); [|done].
    cbn. unfold withItems, withCurrentDirectory, withPathStack. cbn.
    by rewrite Hstack, Hcurrent.
  - unfold prepared. rewrite Hfalsy. cbn. by rewrite Hfalsy.
Qed.

(** A listing made again on a file system that answers the same shows the
    same view: the second [setDirectory] of the same directory returns or
    throws as the first did, and leaves the asset root, the path stack, the
    current directory and the notifications as the first left them, with
    items that have the same props but for their keys, which every listing
    draws anew. So does a second [refresh]. *)
Theorem setDirectory_again_shows_the_same
  (fs : FileSystem) (directoryPath : string) (this : Component) :
  sameView (setDirectory fs directoryPath (setDirectory fs directoryPath this).2)
           (setDirectory fs directoryPath this)
  ∧ sameView (refresh fs (refresh fs this).2) (refresh fs this).
Proof.
  assert (Hagain : ∀ d c, setDirectory fs d (setDirectory fs d c).2
                          = setDirectory fs d c).
  { intros d c. rewrite (setDirectory_run fs d (setDirectory fs d c).2).
    rewrite (setDirectory_run fs d c).
    destruct (readdir fs d) as [files|e] eqn:Hreaddir.
    - destruct (buildItems fs (assetsDirectoryOf (prepared c d)) d
                  (List.filter shown files)) as [elements|e] eqn:Hbuild.
      + cbn [snd]. rewrite prepared_listed.
        assert (Hroot : assetsDirectoryOf (listed c d elements)
                        = assetsDirectoryOf (prepared c d)) by done.
        rewrite Hroot, Hbuild. f_equal.
        unfold listed at 1. rewrite prepared_listed, Hroot.
        unfold listed. destruct (refreshedPathStack _ _); reflexivity.
      + cbn [snd]. by rewrite prepared_again, Hbuild.
    - cbn [snd]. by rewrite prepared_again. }
  assert (Hsame : ∀ a b : completion unit * Component, a = b → sameView a b)
    by (intros a b ->; by unfold sameView).
  split; apply Hsame; [apply Hagain|].
  unfold refresh, mbind, C_bind, getThis.
  rewrite setDirectory_currentDirectory.
  destruct (JsText.falsy _); apply Hagain.
Qed.
End FilesViewFirstAndAgain.
